(** * Notebook metadata reconciliation and the base notebook model

    A shallow embedding of [updateNotebookMetadata],
    [getDefaultNotebookContent] and the class [BaseNotebookModel], together
    with the properties the specification states about them.

    JavaScript objects are records whose optional fields are [option]s
    ([None] is [undefined]); an in-place mutation of an object is a
    function that returns the object's new contents next to the value the
    code returns. *)

From Stdlib Require Import ZArith String List Bool Lia.
From stdpp Require Import base decidable option list strings pretty gmap.

Local Open Scope string_scope.
Local Open Scope Z_scope.

(** ** JavaScript values *)

(** A JSON scalar stored in a field the notebook format leaves untyped:
    [language_info.version] holds a number in the default content and a
    string once it has been reconciled. *)
Inductive JsValue : Type :=
  | JsNumber (n : Z)
  | JsString (s : string).

#[global] Instance JsValue_eq_dec : EqDecision JsValue.
Proof. solve_decision. Defined.

(** Truthiness of an optional string: [undefined] and [''] are falsy. *)
Definition truthy (s : option string) : bool :=
  match s with
  | Some s => negb (String.eqb s "")
  | None => false
  end.

(** [a || b] on optional strings. *)
Definition js_or (a b : option string) : option string :=
  if truthy a then a else b.

(** [a || b || ''], which always is a string. *)
Definition js_or_empty (a b : option string) : string :=
  match js_or (js_or a b) (Some "") with
  | Some s => s
  | None => ""
  end.

(** [a !== b] on strings. *)
Definition str_neq (a b : string) : bool := negb (String.eqb a b).

(** [a !== b] between a possibly missing field and a string. *)
Definition opt_str_neq (a : option string) (b : string) : bool :=
  match a with
  | Some a => str_neq a b
  | None => true
  end.

(** [v !== s] where [v] is an untyped field and [s] a string: strict
    inequality never identifies a number with a string. *)
Definition js_neq_string (v : option JsValue) (s : string) : bool :=
  match v with
  | Some (JsString t) => str_neq t s
  | Some (JsNumber _) => true
  | None => true
  end.

(** ** The data model *)

(** The part of an interpreter description the code reads. *)
Record PythonVersion : Type := { raw : string }.

Record PythonEnvironment : Type := {
  displayName : option string;
  path : string;
  version : option PythonVersion
}.

(** A kernel spec or a live kernel model: the three fields read from
    either. *)
Record KernelSpecOrModel : Type := {
  name : option string;
  display_name : option string;
  id : option string
}.

Record KernelConnectionMetadata : Type := {
  kind : string;
  kernelModel : option KernelSpecOrModel;
  kernelSpec : option KernelSpecOrModel;
  interpreter : option PythonEnvironment
}.

Record CodemirrorMode : Type := {
  cm_name : string;
  cm_version : Z
}.

Record LanguageInfo : Type := {
  codemirror_mode : option CodemirrorMode;
  file_extension : option string;
  mimetype : option string;
  li_name : string;
  nbconvert_exporter : option string;
  pygments_lexer : option string;
  li_version : option JsValue
}.

Record InterpreterRef : Type := { hash : string }.

Record KernelspecMetadata : Type := {
  ks_interpreter : option InterpreterRef
}.

Record Kernelspec : Type := {
  ks_name : string;
  ks_display_name : string;
  ks_metadata : option KernelspecMetadata
}.

Record NotebookMetadata : Type := {
  language_info : option LanguageInfo;
  kernelspec : option Kernelspec;
  orig_nbformat : option Z
}.

#[global] Instance PythonVersion_eq_dec : EqDecision PythonVersion.
Proof. solve_decision. Defined.
#[global] Instance CodemirrorMode_eq_dec : EqDecision CodemirrorMode.
Proof. solve_decision. Defined.
#[global] Instance LanguageInfo_eq_dec : EqDecision LanguageInfo.
Proof. solve_decision. Defined.
#[global] Instance InterpreterRef_eq_dec : EqDecision InterpreterRef.
Proof. solve_decision. Defined.
#[global] Instance KernelspecMetadata_eq_dec : EqDecision KernelspecMetadata.
Proof. solve_decision. Defined.
#[global] Instance Kernelspec_eq_dec : EqDecision Kernelspec.
Proof. solve_decision. Defined.
#[global] Instance NotebookMetadata_eq_dec : EqDecision NotebookMetadata.
Proof. solve_decision. Defined.

(** Field assignments. *)
Definition set_li_version (v : option JsValue) (li : LanguageInfo) : LanguageInfo :=
  {| codemirror_mode := codemirror_mode li;
     file_extension := file_extension li;
     mimetype := mimetype li;
     li_name := li_name li;
     nbconvert_exporter := nbconvert_exporter li;
     pygments_lexer := pygments_lexer li;
     li_version := v |}.

Definition set_language_info (li : option LanguageInfo) (m : NotebookMetadata) : NotebookMetadata :=
  {| language_info := li;
     kernelspec := kernelspec m;
     orig_nbformat := orig_nbformat m |}.

Definition set_kernelspec (ks : option Kernelspec) (m : NotebookMetadata) : NotebookMetadata :=
  {| language_info := language_info m;
     kernelspec := ks;
     orig_nbformat := orig_nbformat m |}.

(** [ks.name = n; ks.display_name = d], the other fields staying. *)
Definition set_ks_names (n d : string) (ks : Kernelspec) : Kernelspec :=
  {| ks_name := n;
     ks_display_name := d;
     ks_metadata := ks_metadata ks |}.

(** ** [updateNotebookMetadata] *)

(** What a call hands back: the object [{ changed, kernelId }]. *)
Record UpdateResult : Type := {
  changed : bool;
  kernelId : option string
}.

(** How a call ends. Reading a property of [undefined] raises a
    [TypeError]. *)
Inductive Completion : Type :=
  | Returns (r : UpdateResult)
  | ThrowsTypeError.

(** The local variables of a call in flight: the metadata object as
    mutated so far, and the two [let] variables. *)
Record Frame : Type := {
  f_metadata : NotebookMetadata;
  f_changed : bool;
  f_kernelId : option string
}.

(** [interpreter.displayName || interpreter.path] *)
Definition interpreterName (i : PythonEnvironment) : string :=
  match js_or (displayName i) (Some (path i)) with
  | Some s => s
  | None => path i
  end.

Section Reconciliation.

(** The two helpers of [../jupyter/kernels/helpers] and the digest of
    [hash.js] are imported by the module; the reconciliation is stated
    for whatever they compute. *)
Variable getInterpreterFromKernelConnectionMetadata :
  option KernelConnectionMetadata -> option PythonEnvironment.
Variable kernelConnectionMetadataHasKernelModel :
  KernelConnectionMetadata -> bool.
(** [sha256().update(s).digest('hex')] *)
Variable sha256_hex : string -> string.

(** The first [if / else if]: the language version. *)
Definition languageInfoStep (kernelConnection : option KernelConnectionMetadata)
    (fr : Frame) : Frame :=
  let metadata := f_metadata fr in
  let interpreter := getInterpreterFromKernelConnectionMetadata kernelConnection in
  match interpreter with
  | Some i =>
      match version i, language_info metadata with
      | Some v, Some li =>
          if js_neq_string (li_version li) (raw v) then
            {| f_metadata :=
                 set_language_info (Some (set_li_version (Some (JsString (raw v))) li)) metadata;
               f_changed := true;
               f_kernelId := f_kernelId fr |}
          else fr
      | _, _ => fr
      end
  | None =>
      match language_info metadata with
      | Some _ =>
          {| f_metadata := set_language_info None metadata;
             f_changed := true;
             f_kernelId := f_kernelId fr |}
      | None => fr
      end
  end.

(** [kernelConnection && hasKernelModel(kernelConnection)
      ? kernelConnection.kernelModel : kernelConnection?.kernelSpec] *)
Definition kernelSpecOrModelOf (kernelConnection : option KernelConnectionMetadata)
    : option KernelSpecOrModel :=
  match kernelConnection with
  | Some kc =>
      if kernelConnectionMetadataHasKernelModel kc then kernelModel kc
      else kernelSpec kc
  | None => None
  end.

(** [a !== b] on the two optional ids. *)
Definition opt_id_neq (a b : option string) : bool :=
  negb (bool_decide (a = b)).

(** The second [if / else if / else if]: the kernelspec block. The last
    branch reads [kernelConnection.interpreter.displayName], which
    raises when the connection has no interpreter. *)
Definition kernelspecStep (kernelConnection : option KernelConnectionMetadata)
    (fr : Frame) : Frame + NotebookMetadata :=
  let metadata := f_metadata fr in
  match kernelSpecOrModelOf kernelConnection, kernelspec metadata with
  | Some spec, None =>
      inl {| f_metadata :=
               set_kernelspec
                 (Some {| ks_name := js_or_empty (name spec) (display_name spec);
                          ks_display_name := js_or_empty (display_name spec) (name spec);
                          ks_metadata := None |})
                 metadata;
             f_changed := true;
             f_kernelId := id spec |}
  | Some spec, Some ks =>
      let name' := js_or_empty (name spec) (display_name spec) in
      let displayName' := js_or_empty (display_name spec) (name spec) in
      if str_neq (ks_name ks) name'
         || str_neq (ks_display_name ks) displayName'
         || opt_id_neq (f_kernelId fr) (id spec)
      then
        inl {| f_metadata := set_kernelspec (Some (set_ks_names name' displayName' ks)) metadata;
               f_changed := true;
               f_kernelId := id spec |}
      else inl fr
  | None, _ =>
      match kernelConnection with
      | Some kc =>
          if String.eqb (kind kc) "startUsingPythonInterpreter" then
            match interpreter kc with
            | Some i =>
                let name' := interpreterName i in
                if opt_str_neq (ks_name <$> kernelspec metadata) name'
                   || opt_str_neq (ks_display_name <$> kernelspec metadata) name'
                then
                  inl {| f_metadata :=
                           set_kernelspec
                             (Some {| ks_name := name';
                                      ks_display_name := name';
                                      ks_metadata :=
                                        Some {| ks_interpreter :=
                                                  Some {| hash := sha256_hex (path i) |} |} |})
                             metadata;
                         f_changed := true;
                         f_kernelId := f_kernelId fr |}
                else inl fr
            | None => inr metadata
            end
          else inl fr
      | None => inl fr
      end
  end.

(** The function: the metadata object after the call (it is mutated in
    place) and how the call ended. *)
Definition updateNotebookMetadata (metadata : option NotebookMetadata)
    (kernelConnection : option KernelConnectionMetadata)
    : option NotebookMetadata * Completion :=
  match metadata with
  | None => (None, Returns {| changed := false; kernelId := None |})
  | Some m =>
      let fr0 := {| f_metadata := m; f_changed := false; f_kernelId := None |} in
      match kernelspecStep kernelConnection (languageInfoStep kernelConnection fr0) with
      | inl fr =>
          (Some (f_metadata fr),
           Returns {| changed := f_changed fr; kernelId := f_kernelId fr |})
      | inr m' => (Some m', ThrowsTypeError)
      end
  end.

End Reconciliation.

(** ** [getDefaultNotebookContent] *)

(** The notebook document, [Partial<nbformat.INotebookContent>]. [C] is
    the type of a Jupyter cell. *)
Record NotebookContent (C : Type) : Type := {
  nc_metadata : option NotebookMetadata;
  nc_nbformat : option Z;
  nc_nbformat_minor : option Z;
  nc_cells : option (list C)
}.
Arguments nc_metadata {C} _.
Arguments nc_nbformat {C} _.
Arguments nc_nbformat_minor {C} _.
Arguments nc_cells {C} _.

(** The object literal [{}]. *)
Definition emptyContent {C : Type} : NotebookContent C :=
  {| nc_metadata := None; nc_nbformat := None; nc_nbformat_minor := None;
     nc_cells := None |}.

(** [json.cells = cells] *)
Definition set_cells {C : Type} (cells : option (list C)) (json : NotebookContent C)
    : NotebookContent C :=
  {| nc_metadata := nc_metadata json;
     nc_nbformat := nc_nbformat json;
     nc_nbformat_minor := nc_nbformat_minor json;
     nc_cells := cells |}.

(** [pythonNumber] is an integer here; the template literal prints it in
    decimal. *)
Definition getDefaultNotebookContent {C : Type} (pythonNumber : Z) : NotebookContent C :=
  let metadata :=
    {| language_info :=
         Some {| codemirror_mode := Some {| cm_name := "ipython"; cm_version := pythonNumber |};
                 file_extension := Some ".py";
                 mimetype := Some "text/x-python";
                 li_name := "python";
                 nbconvert_exporter := Some "python";
                 pygments_lexer := Some ("ipython" +:+ pretty pythonNumber);
                 li_version := Some (JsNumber pythonNumber) |};
       kernelspec := None;
       orig_nbformat := Some 2 |} in
  {| nc_metadata := Some metadata;
     nc_nbformat := Some 4;
     nc_nbformat_minor := Some 2;
     nc_cells := None |}.

(** ** The remembered kernel ids *)

Definition ActiveKernelIdList : string := "Active_Kernel_Id_List".

(** The number of kernel ids remembered between sessions. *)
Definition MaximumKernelIdListSize : nat := 40.

Record KernelIdListEntry : Type := {
  fileHash : string;
  e_kernelId : option string
}.

(** A value kept in the host's memento: the kernel-id list, or a value
    that is falsy (the code guards the list with [if (list)]). *)
Inductive StoredValue : Type :=
  | StoredNull
  | StoredList (l : list KernelIdListEntry).

(** [Memento.get(key, defaultValue)] *)
Definition memento_get (m : gmap string StoredValue) (key : string)
    (defaultValue : StoredValue) : StoredValue :=
  match m !! key with
  | Some v => v
  | None => defaultValue
  end.

(** ** [BaseNotebookModel] *)

(** [ICryptoUtils.createHash(data, hashFormat)] with a string result. *)
Record ICryptoUtils : Type := {
  createHash : string -> string -> string
}.

(** A [Uri], known by what [toString()] prints. *)
Record Uri : Type := { toString : string }.

(** The fields of an instance. [disposedFired] counts the calls of
    [_disposed.fire()]. *)
Record BaseNotebookModel (C : Type) : Type := {
  _isTrusted : bool;
  _file : Uri;
  globalMemento : gmap string StoredValue;
  crypto : ICryptoUtils;
  notebookJson : NotebookContent C;
  indentAmount : string;
  pythonNumber : Z;
  _isDisposed : option bool;
  m_kernelId : option string;
  disposedFired : nat
}.
Arguments _isTrusted {C} _.
Arguments _file {C} _.
Arguments globalMemento {C} _.
Arguments crypto {C} _.
Arguments notebookJson {C} _.
Arguments indentAmount {C} _.
Arguments pythonNumber {C} _.
Arguments _isDisposed {C} _.
Arguments m_kernelId {C} _.
Arguments disposedFired {C} _.

(** What the getter [metadata] hands out: the document's own metadata
    object (the very reference, so that writing to it writes to the
    document), or a fresh object spread from it with the kernel id
    added. *)
Inductive MetadataView : Type :=
  | LiveMetadata (m : option NotebookMetadata)
  | MetadataWithId (m : NotebookMetadata) (id : string).

Section Model.

(** [J] is a Jupyter cell ([nbformat.ICell]), [I] a cell of the editor
    ([ICell]). *)
Context {J I : Type}.

Local Abbreviation model := (BaseNotebookModel J).

(** What a subclass supplies by overriding the two protected methods
    (the base class returns [[]] from both). *)
Variable getJupyterCells : model -> option (list J).
Variable getICells : model -> list I.

Definition set_notebookJson (json : NotebookContent J) (s : model) : model :=
  {| _isTrusted := _isTrusted s; _file := _file s;
     globalMemento := globalMemento s; crypto := crypto s;
     notebookJson := json;
     indentAmount := indentAmount s; pythonNumber := pythonNumber s;
     _isDisposed := _isDisposed s; m_kernelId := m_kernelId s;
     disposedFired := disposedFired s |}.

Definition set_kernelId (k : option string) (s : model) : model :=
  {| _isTrusted := _isTrusted s; _file := _file s;
     globalMemento := globalMemento s; crypto := crypto s;
     notebookJson := notebookJson s;
     indentAmount := indentAmount s; pythonNumber := pythonNumber s;
     _isDisposed := _isDisposed s; m_kernelId := k;
     disposedFired := disposedFired s |}.

(** [this._isDisposed === true] *)
Definition isDisposed (s : model) : bool :=
  match _isDisposed s with
  | Some true => true
  | _ => false
  end.

Definition isDirty (s : model) : bool := false.

Definition file (s : model) : Uri := _file s.

Definition isTrusted (s : model) : bool := _isTrusted s.

Definition metadata (s : model) : MetadataView :=
  match m_kernelId s, nc_metadata (notebookJson s) with
  | Some k, Some m =>
      if truthy (Some k) then MetadataWithId m k
      else LiveMetadata (nc_metadata (notebookJson s))
  | _, _ => LiveMetadata (nc_metadata (notebookJson s))
  end.

Definition cells (s : model) : list I :=
  if isDisposed s then [] else getICells s.

Definition dispose (s : model) : model :=
  {| _isTrusted := _isTrusted s; _file := _file s;
     globalMemento := globalMemento s; crypto := crypto s;
     notebookJson := notebookJson s;
     indentAmount := indentAmount s; pythonNumber := pythonNumber s;
     _isDisposed := Some true; m_kernelId := m_kernelId s;
     disposedFired := S (disposedFired s) |}.

Definition trust (s : model) : model :=
  {| _isTrusted := true; _file := _file s;
     globalMemento := globalMemento s; crypto := crypto s;
     notebookJson := notebookJson s;
     indentAmount := indentAmount s; pythonNumber := pythonNumber s;
     _isDisposed := _isDisposed s; m_kernelId := m_kernelId s;
     disposedFired := disposedFired s |}.

(** The field [notebookJson] always holds an object (the constructor's
    default parameter replaces [undefined] by [{}]), so of the guard
    [!this.notebookJson || !this.notebookJson.metadata] the second
    disjunct decides. *)
Definition ensureNotebookJson (s : model) : model :=
  match nc_metadata (notebookJson s) with
  | Some _ => s
  | None => set_notebookJson (getDefaultNotebookContent (pythonNumber s)) s
  end.

(** The instance after the call, and the JSON it returns (a copy of
    [notebookJson] with the cells replaced). *)
Definition generateNotebookJson (s : model) : model * NotebookContent J :=
  let s' := ensureNotebookJson s in
  (s', set_cells (getJupyterCells s') (notebookJson s')).

Definition getRawContent (s : model) : model * NotebookContent J :=
  generateNotebookJson s.

Definition getStoredKernelId (s : model) : option string :=
  match memento_get (globalMemento s) ActiveKernelIdList (StoredList []) with
  | StoredList list =>
      let fileHash' := createHash (crypto s) (toString (_file s)) "string" in
      match List.find (fun l => String.eqb (fileHash l) fileHash') list with
      | Some entry => e_kernelId entry
      | None => None
      end
  | StoredNull => None
  end.

(** The constructor; [None] is an argument left out. *)
Definition new_BaseNotebookModel (isTrusted0 : bool) (file0 : Uri)
    (globalMemento0 : gmap string StoredValue) (crypto0 : ICryptoUtils)
    (notebookJson0 : option (NotebookContent J))
    (indentAmount0 : option string) (pythonNumber0 : option Z) : model :=
  let s0 :=
    {| _isTrusted := isTrusted0; _file := file0;
       globalMemento := globalMemento0; crypto := crypto0;
       notebookJson := default emptyContent notebookJson0;
       indentAmount := default " " indentAmount0;
       pythonNumber := default 3 pythonNumber0;
       _isDisposed := None; m_kernelId := None;
       disposedFired := 0 |} in
  let s1 := ensureNotebookJson s0 in
  set_kernelId (getStoredKernelId s1) s1.

(** The public operations that can change an instance. *)
Inductive Op : Type :=
  | OpDispose
  | OpTrust
  | OpGetContent
  | OpGetRawContent.

(** [getContent] prints the JSON that [generateNotebookJson] returns;
    its effect on the instance is that of [generateNotebookJson]. *)
Definition step (s : model) (o : Op) : model :=
  match o with
  | OpDispose => dispose s
  | OpTrust => trust s
  | OpGetContent => fst (generateNotebookJson s)
  | OpGetRawContent => fst (getRawContent s)
  end.

Definition run (ops : list Op) (s : model) : model := fold_left step ops s.

End Model.

(** ** Auxiliary definitions *)

(** The words of the specification for [a || b || '']: the first of the
    two that is a non-empty string, the empty string when neither is. *)
Definition fallback (a b : option string) : string :=
  match a, b with
  | Some (String c s), _ => String c s
  | _, Some (String c s) => String c s
  | _, _ => ""
  end.

(** A connection is well typed when a ['startUsingPythonInterpreter']
    connection has its interpreter, as its TypeScript type demands; the
    function reads that field without a guard. *)
Definition well_typed (kernelConnection : option KernelConnectionMetadata) : bool :=
  match kernelConnection with
  | Some kc =>
      if String.eqb (kind kc) "startUsingPythonInterpreter"
      then bool_decide (is_Some (interpreter kc))
      else true
  | None => true
  end.

(** Stand-ins for the imported helpers, used where an example needs the
    helpers to be some function: the interpreter a connection carries, the
    test for a live kernel, and a digest that only tags its input. *)
Definition carriedInterpreter (kernelConnection : option KernelConnectionMetadata)
    : option PythonEnvironment :=
  kernelConnection ≫= interpreter.

Definition isLiveKernel (kc : KernelConnectionMetadata) : bool :=
  String.eqb (kind kc) "connectToLiveKernel".

Definition taggedDigest (s : string) : string := "sha256:" +:+ s.

(** The frame a call starts from. *)
Definition frame0 (m : NotebookMetadata) : Frame :=
  {| f_metadata := m; f_changed := false; f_kernelId := None |}.

(** Modelled from the spec: the operation that stores a kernel id in the
    list is not part of the sources at hand (they only read the list).
    The specification describes a capped, 40-entry association list that
    remembers which kernel was last used for a file, and the code's own
    comment says that only the last 40 items are stored: the entry of the
    file replaces the one it had, and the oldest entries are dropped until
    at most [MaximumKernelIdListSize] remain. *)
Definition rememberKernelId (entries : list KernelIdListEntry) (fileHash' : string)
    (kernelId' : option string) : list KernelIdListEntry :=
  let others := filter (fun l => fileHash l <> fileHash') entries in
  let entries' := (others ++ [{| fileHash := fileHash'; e_kernelId := kernelId' |}])%list in
  drop (length entries' - MaximumKernelIdListSize) entries'.

(** The operations on the stored list: the lookup of [getStoredKernelId],
    which only reads it, and the store. *)
Inductive ListOp : Type :=
  | Lookup (fileHash' : string)
  | Remember (fileHash' : string) (kernelId' : option string).

Definition applyListOp (entries : list KernelIdListEntry) (o : ListOp)
    : list KernelIdListEntry :=
  match o with
  | Lookup _ => entries
  | Remember h k => rememberKernelId entries h k
  end.

(** The effect on an instance of a write made through the reference that
    the getter [metadata] hands out as [LiveMetadata]: the object written
    to is the document's own. *)
Definition writeLiveMetadata {J : Type} (m : option NotebookMetadata)
    (s : BaseNotebookModel J) : BaseNotebookModel J :=
  set_notebookJson
    {| nc_metadata := m;
       nc_nbformat := nc_nbformat (notebookJson s);
       nc_nbformat_minor := nc_nbformat_minor (notebookJson s);
       nc_cells := nc_cells (notebookJson s) |}
    s.

(** Which operations are a [dispose()], which a [trust()]. *)
Definition isDispose (o : Op) : bool :=
  match o with
  | OpDispose => true
  | _ => false
  end.

Definition isTrust (o : Op) : bool :=
  match o with
  | OpTrust => true
  | _ => false
  end.

(** The names a kernelspec block gets from a kernel spec or model, next to
    the [metadata] it keeps. *)
Definition namedFrom (spec : KernelSpecOrModel) (md : option KernelspecMetadata)
    : Kernelspec :=
  {| ks_name := fallback (name spec) (display_name spec);
     ks_display_name := fallback (display_name spec) (name spec);
     ks_metadata := md |}.

(** ** Sample data for the examples *)

Definition sampleLanguageInfo : LanguageInfo :=
  {| codemirror_mode := None;
     file_extension := Some ".py";
     mimetype := None;
     li_name := "python";
     nbconvert_exporter := None;
     pygments_lexer := None;
     li_version := Some (JsString "3.7.0") |}.

Definition sampleMetadata : NotebookMetadata :=
  {| language_info := Some sampleLanguageInfo;
     kernelspec := None;
     orig_nbformat := Some 2 |}.

(** A metadata object whose kernelspec already carries the names of
    [samplePython], and no interpreter hash. *)
Definition namedMetadata : NotebookMetadata :=
  {| language_info := None;
     kernelspec := Some {| ks_name := "Python 3.8";
                           ks_display_name := "Python 3.8";
                           ks_metadata := None |};
     orig_nbformat := Some 2 |}.

Definition samplePython : PythonEnvironment :=
  {| displayName := Some "Python 3.8";
     path := "/usr/bin/python3";
     version := Some {| raw := "3.8.5" |} |}.

Definition pythonConnection : KernelConnectionMetadata :=
  {| kind := "startUsingPythonInterpreter";
     kernelModel := None;
     kernelSpec := None;
     interpreter := Some samplePython |}.

Definition sampleSpec : KernelSpecOrModel :=
  {| name := Some "python3"; display_name := None; id := Some "kernel-1" |}.

Definition specConnection : KernelConnectionMetadata :=
  {| kind := "startUsingKernelSpec";
     kernelModel := None;
     kernelSpec := Some sampleSpec;
     interpreter := None |}.

Definition sampleCrypto : ICryptoUtils :=
  {| createHash := fun data _ => "h:" +:+ data |}.

Definition sampleFile : Uri := {| toString := "file:///nb.ipynb" |}.

Definition sampleEntries : list KernelIdListEntry :=
  [ {| fileHash := "h:file:///other.ipynb"; e_kernelId := Some "kernel-a" |};
    {| fileHash := "h:file:///nb.ipynb"; e_kernelId := Some "kernel-b" |};
    {| fileHash := "h:file:///nb.ipynb"; e_kernelId := Some "kernel-c" |} ].

(** A model of [sampleFile] over a memento that holds [sampleEntries],
    and one over an empty memento. *)
Definition sampleModel : BaseNotebookModel unit :=
  new_BaseNotebookModel true sampleFile
    {[ ActiveKernelIdList := StoredList sampleEntries ]} sampleCrypto None None None.

Definition freshModel : BaseNotebookModel unit :=
  new_BaseNotebookModel false sampleFile ∅ sampleCrypto None None None.

(** A python connection that lacks its interpreter, and a connection of a
    kind the kernelspec step has no branch for. *)
Definition bareConnection : KernelConnectionMetadata :=
  {| kind := "startUsingPythonInterpreter";
     kernelModel := None;
     kernelSpec := None;
     interpreter := None |}.

Definition defaultKernelConnection : KernelConnectionMetadata :=
  {| kind := "startUsingDefaultKernel";
     kernelModel := None;
     kernelSpec := None;
     interpreter := Some samplePython |}.

(** A python interpreter of which no version is known. *)
Definition unversionedConnection : KernelConnectionMetadata :=
  {| kind := "startUsingPythonInterpreter";
     kernelModel := None;
     kernelSpec := None;
     interpreter :=
       Some {| displayName := None; path := "/opt/py/bin/python"; version := None |} |}.

(** * Properties *)

(** ** Strings and truthiness *)

Lemma str_neq_true (a b : string) : str_neq a b = true <-> a <> b.
Proof.
  unfold str_neq. rewrite negb_true_iff. apply String.eqb_neq.
Qed.

Lemma str_neq_false (a b : string) : str_neq a b = false <-> a = b.
Proof.
  unfold str_neq. rewrite negb_false_iff. apply String.eqb_eq.
Qed.

Lemma js_neq_string_true (v : option JsValue) (s : string) :
  js_neq_string v s = true <-> v <> Some (JsString s).
Proof.
  destruct v as [[n | t] |]; simpl.
  - split; [discriminate | reflexivity].
  - rewrite str_neq_true. split; [congruence | intros H E; apply H; congruence].
  - split; [discriminate | reflexivity].
Qed.

Lemma js_neq_string_false (v : option JsValue) (s : string) :
  js_neq_string v s = false <-> v = Some (JsString s).
Proof.
  destruct (js_neq_string v s) eqn:E.
  - apply js_neq_string_true in E. split; [discriminate | contradiction].
  - split; [intros _ | reflexivity].
    destruct (decide (v = Some (JsString s))) as [|N]; [assumption |].
    apply js_neq_string_true in N. congruence.
Qed.

Lemma opt_str_neq_true (a : option string) (b : string) :
  opt_str_neq a b = true <-> a <> Some b.
Proof.
  destruct a as [a |]; simpl.
  - rewrite str_neq_true. split; congruence.
  - split; [discriminate | reflexivity].
Qed.

Lemma opt_str_neq_false (a : option string) (b : string) :
  opt_str_neq a b = false <-> a = Some b.
Proof.
  destruct a as [a |]; simpl.
  - rewrite str_neq_false. split; congruence.
  - split; discriminate.
Qed.

Lemma opt_id_neq_true (a b : option string) : opt_id_neq a b = true <-> a <> b.
Proof.
  unfold opt_id_neq. rewrite negb_true_iff, bool_decide_eq_false. reflexivity.
Qed.

Lemma js_or_empty_fallback (a b : option string) : js_or_empty a b = fallback a b.
Proof.
  destruct a as [[| c s] |], b as [[| d t] |]; reflexivity.
Qed.

Lemma set_li_version_same (li : LanguageInfo) :
  set_li_version (li_version li) li = li.
Proof. destruct li; reflexivity. Qed.

Lemma set_language_info_same (m : NotebookMetadata) :
  set_language_info (language_info m) m = m.
Proof. destruct m; reflexivity. Qed.

Section ReconciliationFacts.

Variable getInterpreter : option KernelConnectionMetadata -> option PythonEnvironment.
Variable hasKernelModel : KernelConnectionMetadata -> bool.
Variable sha256_hex : string -> string.

Local Abbreviation update := (updateNotebookMetadata getInterpreter hasKernelModel sha256_hex).
Local Abbreviation langStep := (languageInfoStep getInterpreter).
Local Abbreviation ksStep := (kernelspecStep hasKernelModel sha256_hex).
Local Abbreviation specOf := (kernelSpecOrModelOf hasKernelModel).

(** *** The language step *)

Lemma langStep_frame (kc : option KernelConnectionMetadata) (fr : Frame) :
  kernelspec (f_metadata (langStep kc fr)) = kernelspec (f_metadata fr)
  /\ orig_nbformat (f_metadata (langStep kc fr)) = orig_nbformat (f_metadata fr)
  /\ f_kernelId (langStep kc fr) = f_kernelId fr.
Proof.
  unfold languageInfoStep.
  destruct (getInterpreter kc) as [i |].
  - destruct (version i) as [v |], (language_info (f_metadata fr)) as [li |]; auto.
    destruct (js_neq_string (li_version li) (raw v)); auto.
  - destruct (language_info (f_metadata fr)); auto.
Qed.

(** The step either leaves the frame as it is, or it sets [changed] and
    leaves a [language_info] that differs from the one it found. *)
Lemma langStep_cases (kc : option KernelConnectionMetadata) (fr : Frame) :
  langStep kc fr = fr
  \/ (f_changed (langStep kc fr) = true
      /\ language_info (f_metadata (langStep kc fr)) <> language_info (f_metadata fr)).
Proof.
  unfold languageInfoStep.
  destruct (getInterpreter kc) as [i |].
  - destruct (version i) as [v |], (language_info (f_metadata fr)) as [li |] eqn:Eli; auto.
    destruct (js_neq_string (li_version li) (raw v)) eqn:En; auto.
    right. split; [reflexivity |]. simpl. intros H.
    apply js_neq_string_true in En. apply En.
    injection H as H. rewrite <- H. reflexivity.
  - destruct (language_info (f_metadata fr)) eqn:Eli; [right | left; reflexivity].
    split; [reflexivity |]. simpl. discriminate.
Qed.

(** *** The kernelspec step *)

Lemma ksStep_returns (kc : option KernelConnectionMetadata) (fr : Frame) :
  well_typed kc = true -> exists fr', ksStep kc fr = inl fr'.
Proof.
  intros W. unfold kernelspecStep.
  destruct (specOf kc) as [spec |].
  - destruct (kernelspec (f_metadata fr)) as [ks |]; [| eauto].
    destruct (_ || _ || _); eauto.
  - destruct kc as [c |]; [| eauto]. simpl in W.
    destruct (String.eqb (kind c) "startUsingPythonInterpreter"); [| eauto].
    apply bool_decide_eq_true in W. destruct W as [i Hi]. rewrite Hi.
    destruct (_ || _); eauto.
Qed.

Lemma ksStep_frame (kc : option KernelConnectionMetadata) (fr fr' : Frame) :
  ksStep kc fr = inl fr' ->
  language_info (f_metadata fr') = language_info (f_metadata fr)
  /\ orig_nbformat (f_metadata fr') = orig_nbformat (f_metadata fr).
Proof.
  unfold kernelspecStep.
  destruct (specOf kc) as [spec |].
  - destruct (kernelspec (f_metadata fr)) as [ks |].
    + destruct (_ || _ || _); intros [= <-]; auto.
    + intros [= <-]; auto.
  - destruct kc as [c |]; [| intros [= <-]; auto].
    destruct (String.eqb (kind c) "startUsingPythonInterpreter"); [| intros [= <-]; auto].
    destruct (interpreter c) as [i |]; [| discriminate].
    destruct (_ || _); intros [= <-]; auto.
Qed.

(** The step either leaves the frame as it is, or it sets [changed] and
    leaves a kernelspec that differs from the one it found or a kernel
    id that differs from the one it found. *)
Lemma ksStep_cases (kc : option KernelConnectionMetadata) (fr fr' : Frame) :
  ksStep kc fr = inl fr' ->
  fr' = fr
  \/ (f_changed fr' = true
      /\ (kernelspec (f_metadata fr') <> kernelspec (f_metadata fr)
          \/ f_kernelId fr' <> f_kernelId fr)).
Proof.
  unfold kernelspecStep.
  destruct (specOf kc) as [spec |].
  - destruct (kernelspec (f_metadata fr)) as [ks |] eqn:Eks.
    + destruct (_ || _ || _) eqn:Ec; intros [= <-]; auto.
      right. split; [reflexivity |]. simpl.
      apply orb_true_iff in Ec. destruct Ec as [Ec | Ec].
      * left. apply orb_true_iff in Ec. intros [= H]. destruct Ec as [Ec | Ec];
          apply str_neq_true in Ec; apply Ec; rewrite <- H; reflexivity.
      * right. apply opt_id_neq_true in Ec. congruence.
    + intros [= <-]. right. split; [reflexivity |]. left. simpl. discriminate.
  - destruct kc as [c |]; [| intros [= <-]; auto].
    destruct (String.eqb (kind c) "startUsingPythonInterpreter"); [| intros [= <-]; auto].
    destruct (interpreter c) as [i |]; [| discriminate].
    destruct (_ || _) eqn:Ec; intros [= <-]; auto.
    right. split; [reflexivity |]. left. simpl.
    destruct (kernelspec (f_metadata fr)) as [ks |]; [| discriminate].
    simpl in Ec. intros [= H].
    apply orb_true_iff in Ec.
    destruct Ec as [Ec | Ec]; apply str_neq_true in Ec; apply Ec; rewrite <- H; reflexivity.
Qed.

(** A call on a metadata object is the two steps in a row. *)
Lemma update_steps (m : NotebookMetadata) (kc : option KernelConnectionMetadata)
    (fr : Frame) :
  ksStep kc (langStep kc (frame0 m)) = inl fr ->
  update (Some m) kc
  = (Some (f_metadata fr), Returns {| changed := f_changed fr; kernelId := f_kernelId fr |}).
Proof.
  intros H. unfold updateNotebookMetadata. fold (frame0 m). rewrite H. reflexivity.
Qed.

(** *** The claims about [updateNotebookMetadata] *)

(** C6: called with an absent ([undefined]) metadata argument, the
    function returns at once with [changed = false] and
    [kernelId = undefined], whatever the kernel connection: nothing is
    mutated (there is no object, and none afterwards) and nothing is
    raised (the call completes by returning). *)
Theorem updateNotebookMetadata_absent_metadata
    (kc : option KernelConnectionMetadata) :
  update None kc = (None, Returns {| changed := false; kernelId := None |}).
Proof. reflexivity. Qed.

(** C3: on a metadata object with a [language_info] block, when no
    interpreter is derived from the kernel connection (the connection
    may be absent), the call clears [metadata.language_info] and reports
    [changed = true]. *)
Theorem updateNotebookMetadata_clears_language_info
    (m : NotebookMetadata) (kc : option KernelConnectionMetadata) :
  is_Some (language_info m) ->
  getInterpreter kc = None ->
  well_typed kc = true ->
  exists m' r,
    update (Some m) kc = (Some m', Returns r)
    /\ language_info m' = None
    /\ changed r = true.
Proof.
  intros [li Hli] Hi W.
  destruct (ksStep_returns kc (langStep kc (frame0 m)) W)
    as [fr Hfr].
  exists (f_metadata fr), {| changed := f_changed fr; kernelId := f_kernelId fr |}.
  split; [apply update_steps; assumption |].
  assert (E : langStep kc (frame0 m)
              = {| f_metadata := set_language_info None m;
                   f_changed := true; f_kernelId := None |}).
  { unfold languageInfoStep. rewrite Hi. simpl. rewrite Hli. reflexivity. }
  rewrite E in Hfr.
  destruct (ksStep_frame _ _ _ Hfr) as [Hl _].
  destruct (ksStep_cases _ _ _ Hfr) as [-> | [Hc _]]; simpl in *; auto.
Qed.

(** C2: on a metadata object with a [language_info] block, and a kernel
    connection from which an interpreter with a version is derived,
    after the call [metadata.language_info.version] is the interpreter's
    raw version string (the rest of the block is as it was). The call
    writes the block and reports [changed = true] exactly when the
    stored version differed from the interpreter's; when the two are
    equal the language branch leaves the metadata as it is and does not
    set [changed]. *)
Theorem updateNotebookMetadata_language_version
    (m : NotebookMetadata) (kc : option KernelConnectionMetadata)
    (li : LanguageInfo) (i : PythonEnvironment) (v : PythonVersion) :
  language_info m = Some li ->
  getInterpreter kc = Some i ->
  version i = Some v ->
  well_typed kc = true ->
  exists m' r,
    update (Some m) kc = (Some m', Returns r)
    /\ language_info m' = Some (set_li_version (Some (JsString (raw v))) li)
    /\ ((language_info m' <> language_info m /\ changed r = true)
        <-> li_version li <> Some (JsString (raw v)))
    /\ (f_changed (langStep kc (frame0 m)) = true
        <-> li_version li <> Some (JsString (raw v)))
    /\ (li_version li = Some (JsString (raw v)) -> langStep kc (frame0 m) = frame0 m).
Proof.
  intros Hli Hi Hv W.
  destruct (ksStep_returns kc (langStep kc (frame0 m)) W)
    as [fr Hfr].
  exists (f_metadata fr), {| changed := f_changed fr; kernelId := f_kernelId fr |}.
  split; [apply update_steps; assumption |].
  destruct (ksStep_frame _ _ _ Hfr) as [Hl _]. rewrite Hl.
  assert (E : langStep kc (frame0 m)
              = if js_neq_string (li_version li) (raw v)
                then {| f_metadata :=
                          set_language_info
                            (Some (set_li_version (Some (JsString (raw v))) li)) m;
                        f_changed := true; f_kernelId := None |}
                else frame0 m).
  { unfold languageInfoStep. rewrite Hi, Hv. simpl. rewrite Hli. reflexivity. }
  destruct (js_neq_string (li_version li) (raw v)) eqn:En.
  - apply js_neq_string_true in En.
    assert (Hne : Some (set_li_version (Some (JsString (raw v))) li) <> Some li).
    { intros [= H]. apply En. rewrite <- H. reflexivity. }
    assert (Hc : f_changed fr = true).
    { destruct (ksStep_cases _ _ _ Hfr) as [-> | [Hc _]]; [rewrite E |]; auto. }
    rewrite E. simpl. rewrite Hli, Hc. repeat split; auto; try contradiction.
  - apply js_neq_string_false in En.
    rewrite E. simpl. rewrite Hli, En.
    assert (Hs : set_li_version (Some (JsString (raw v))) li = li).
    { rewrite <- En. apply set_li_version_same. }
    rewrite Hs.
    repeat split; try tauto; try discriminate.
Qed.

(** C1: a call mutates the metadata only where a value differs. The
    returned [changed] is true only if the metadata after the call
    differs from the metadata before it or a kernel id is returned, and
    [changed = false] means that the metadata object is exactly as it
    was (and no kernel id is returned). Fields the reconciliation does
    not own are never touched. *)
Theorem updateNotebookMetadata_changed_only_when_differs
    (m : NotebookMetadata) (kc : option KernelConnectionMetadata) :
  well_typed kc = true ->
  exists m' r,
    update (Some m) kc = (Some m', Returns r)
    /\ (changed r = true -> m' <> m \/ kernelId r <> None)
    /\ (changed r = false -> m' = m /\ kernelId r = None)
    /\ orig_nbformat m' = orig_nbformat m.
Proof.
  intros W.
  destruct (ksStep_returns kc (langStep kc (frame0 m)) W)
    as [fr Hfr].
  exists (f_metadata fr), {| changed := f_changed fr; kernelId := f_kernelId fr |}.
  split; [apply update_steps; assumption |]. simpl.
  destruct (ksStep_frame _ _ _ Hfr) as [Hl Ho].
  destruct (langStep_frame kc (frame0 m)) as (Hk1 & Ho1 & Hid1).
  simpl in Hk1, Ho1, Hid1.
  split; [| split; [| congruence]].
  - intros Hc.
    destruct (langStep_cases kc (frame0 m)) as [E1 | [_ N1]].
    + destruct (ksStep_cases _ _ _ Hfr) as [E2 | [_ [N2 | N2]]].
      * subst fr. rewrite E1 in Hc. discriminate.
      * left. intros E. apply N2. rewrite E, E1. reflexivity.
      * right. rewrite E1 in N2. exact N2.
    + left. intros E. apply N1. rewrite <- Hl, E. reflexivity.
  - intros Hc.
    destruct (ksStep_cases _ _ _ Hfr) as [E2 | [Hc2 _]]; [| congruence].
    subst fr.
    destruct (langStep_cases kc (frame0 m)) as [E1 | [Hc1 _]]; [| congruence].
    rewrite E1. auto.
Qed.

(** C4, as the code has it: when the connection carries a kernel model
    or kernel spec and [metadata.kernelspec] is absent, the call creates
    a kernelspec block whose [name] and [display_name] fall back to each
    other (the empty string when both are missing), returns the spec's
    id as [kernelId] and reports [changed = true]. When the connection
    carries only a Python interpreter, after the call [kernelspec.name]
    and [kernelspec.display_name] are the interpreter's display name (or
    its path); the block is replaced, with [metadata.interpreter.hash]
    the sha256 hex digest of the interpreter's path, and [changed] is
    reported, when the block was absent or one of its two names
    differed; a block that already has both names is left as it is. *)
Theorem updateNotebookMetadata_kernelspec
    (m : NotebookMetadata) (kc : option KernelConnectionMetadata) :
  (forall spec,
      specOf kc = Some spec ->
      kernelspec m = None ->
      exists m',
        update (Some m) kc
        = (Some m', Returns {| changed := true; kernelId := id spec |})
        /\ kernelspec m'
           = Some {| ks_name := fallback (name spec) (display_name spec);
                     ks_display_name := fallback (display_name spec) (name spec);
                     ks_metadata := None |})
  /\ (forall c i,
        kc = Some c ->
        specOf kc = None ->
        kind c = "startUsingPythonInterpreter" ->
        interpreter c = Some i ->
        exists m' r,
          update (Some m) kc = (Some m', Returns r)
          /\ ks_name <$> kernelspec m' = Some (interpreterName i)
          /\ ks_display_name <$> kernelspec m' = Some (interpreterName i)
          /\ kernelId r = None
          /\ (ks_name <$> kernelspec m <> Some (interpreterName i)
              \/ ks_display_name <$> kernelspec m <> Some (interpreterName i) ->
              kernelspec m'
              = Some {| ks_name := interpreterName i;
                        ks_display_name := interpreterName i;
                        ks_metadata :=
                          Some {| ks_interpreter :=
                                    Some {| hash := sha256_hex (path i) |} |} |}
              /\ changed r = true)
          /\ (ks_name <$> kernelspec m = Some (interpreterName i) ->
              ks_display_name <$> kernelspec m = Some (interpreterName i) ->
              kernelspec m' = kernelspec m)).
Proof.
  destruct (langStep_frame kc (frame0 m)) as (Hk & _ & Hid).
  simpl in Hk, Hid.
  split.
  - intros spec Hs Hn.
    eexists. unfold updateNotebookMetadata, kernelspecStep. fold (frame0 m).
    rewrite Hs, Hk, Hn, !js_or_empty_fallback. simpl. split; reflexivity.
  - intros c i -> Hs Hkind Hi.
    unfold updateNotebookMetadata, kernelspecStep. fold (frame0 m).
    rewrite Hs, Hkind, Hi, Hk, Hid. simpl.
    destruct (opt_str_neq (ks_name <$> kernelspec m) (interpreterName i)
              || opt_str_neq (ks_display_name <$> kernelspec m) (interpreterName i))
      eqn:Ec.
    + do 2 eexists. split; [reflexivity |]. simpl.
      repeat split; auto.
      intros H1 H2. apply orb_true_iff in Ec.
      destruct Ec as [Ec | Ec]; apply opt_str_neq_true in Ec; contradiction.
    + apply orb_false_iff in Ec. destruct Ec as [E1 E2].
      apply opt_str_neq_false in E1, E2.
      do 2 eexists. split; [reflexivity |]. simpl.
      rewrite Hk, Hid.
      repeat split; auto;
        match goal with H : _ \/ _ |- _ => destruct H; contradiction end.
Qed.

End ReconciliationFacts.

(** ** The kernel-id list *)

Lemma find_first_match {A : Type} (f : A -> bool) (pre : list A) (e : A) (post : list A) :
  Forall (fun x => f x = false) pre ->
  f e = true ->
  List.find f (pre ++ e :: post)%list = Some e.
Proof.
  intros Hpre He. induction Hpre as [| x pre Hx _ IH]; simpl.
  - rewrite He. reflexivity.
  - rewrite Hx. exact IH.
Qed.

Lemma find_no_match {A : Type} (f : A -> bool) (l : list A) :
  Forall (fun x => f x = false) l -> List.find f l = None.
Proof.
  intros H. induction H as [| x l Hx _ IH]; simpl.
  - reflexivity.
  - rewrite Hx. exact IH.
Qed.

Lemma rememberKernelId_length (l : list KernelIdListEntry) (h : string)
    (k : option string) :
  (length (rememberKernelId l h k) <= MaximumKernelIdListSize)%nat.
Proof.
  unfold rememberKernelId. rewrite length_drop. lia.
Qed.

(** C8: the persisted kernel-id list holds at most 40 entries.
    [MaximumKernelIdListSize] is 40, a store leaves at most that many
    entries whatever the list was, and from a list within the bound (the
    empty default is one) every sequence of operations stays within it. *)
Theorem kernelIdList_capped (l : list KernelIdListEntry) (ops : list ListOp) :
  (length l <= MaximumKernelIdListSize)%nat ->
  MaximumKernelIdListSize = 40%nat
  /\ (forall h k, length (rememberKernelId l h k) <= 40)%nat
  /\ (length (fold_left applyListOp ops l) <= 40)%nat.
Proof.
  intros Hl. split; [reflexivity |]. split.
  - intros h k. apply rememberKernelId_length.
  - revert l Hl. induction ops as [| o ops IH]; intros l Hl; simpl.
    + exact Hl.
    + apply IH. destruct o as [h | h k]; simpl.
      * exact Hl.
      * apply rememberKernelId_length.
Qed.

(** ** The base notebook model *)

Section ModelFacts.

Context {J I : Type}.
Variable getJupyterCells : BaseNotebookModel J -> option (list J).
Variable getICells : BaseNotebookModel J -> list I.

Local Abbreviation model := (BaseNotebookModel J).
Local Abbreviation exec := (run getJupyterCells).

Lemma ensureNotebookJson_flags (s : model) :
  _isDisposed (ensureNotebookJson s) = _isDisposed s
  /\ _isTrusted (ensureNotebookJson s) = _isTrusted s.
Proof.
  unfold ensureNotebookJson. destruct (nc_metadata (notebookJson s)); auto.
Qed.

Lemma ensureNotebookJson_metadata (s : model) :
  is_Some (nc_metadata (notebookJson (ensureNotebookJson s))).
Proof.
  unfold ensureNotebookJson.
  destruct (nc_metadata (notebookJson s)) eqn:E; simpl.
  - rewrite E. eauto.
  - eauto.
Qed.

(** No operation takes the disposed flag back. *)
Lemma step_isDisposed (s : model) (o : Op) :
  isDisposed s = true -> isDisposed (step getJupyterCells s o) = true.
Proof.
  unfold isDisposed. destruct o; simpl; auto;
    destruct (ensureNotebookJson_flags s) as [-> _]; auto.
Qed.

Lemma run_isDisposed (ops : list Op) (s : model) :
  isDisposed s = true -> isDisposed (exec ops s) = true.
Proof.
  revert s. induction ops as [| o ops IH]; intros s H; simpl.
  - exact H.
  - apply IH, step_isDisposed, H.
Qed.

(** No operation takes the trusted flag back. *)
Lemma step_isTrusted (s : model) (o : Op) :
  isTrusted s = true -> isTrusted (step getJupyterCells s o) = true.
Proof.
  unfold isTrusted. destruct o; simpl; auto;
    destruct (ensureNotebookJson_flags s) as [_ ->]; auto.
Qed.

Lemma run_isTrusted (ops : list Op) (s : model) :
  isTrusted s = true -> isTrusted (exec ops s) = true.
Proof.
  revert s. induction ops as [| o ops IH]; intros s H; simpl.
  - exact H.
  - apply IH, step_isTrusted, H.
Qed.

(** C5, as the code has it: the base class keeps a trusted and a
    disposed flag, and its [isDirty] is the constant [false], whatever
    has happened to the document (a subclass may override it).
    [trust()] makes [isTrusted] true and [dispose()] makes [isDisposed]
    true, and no later operation takes either back. *)
Theorem BaseNotebookModel_flags (s : model) (ops : list Op) :
  isDirty (exec ops s) = false
  /\ isTrusted (exec ops (trust s)) = true
  /\ isDisposed (exec ops (dispose s)) = true.
Proof.
  split; [reflexivity |]. split.
  - apply run_isTrusted. reflexivity.
  - apply run_isDisposed. reflexivity.
Qed.

(** C10: once [dispose()] has been called, the getter [cells] returns
    the empty list whatever the subclass's [getICells] would supply, and
    [isDisposed] returns true, after any further operations. *)
Theorem cells_empty_after_dispose (s : model) (ops : list Op) :
  isDisposed (exec ops (dispose s)) = true
  /\ cells getICells (exec ops (dispose s)) = [].
Proof.
  assert (H : isDisposed (exec ops (dispose s)) = true).
  { apply run_isDisposed. reflexivity. }
  split; [exact H |]. unfold cells. rewrite H. reflexivity.
Qed.

(** C7: for every stored kernel-id list, [getStoredKernelId] returns the
    [kernelId] of the first entry whose [fileHash] is the hash of the
    model's file URI string, and [undefined] when no entry matches (the
    empty list among them). *)
Theorem getStoredKernelId_first_match (s : model) (entries : list KernelIdListEntry) :
  memento_get (globalMemento s) ActiveKernelIdList (StoredList []) = StoredList entries ->
  let h := createHash (crypto s) (toString (_file s)) "string" in
  (forall pre e post,
      entries = (pre ++ e :: post)%list ->
      Forall (fun x => fileHash x <> h) pre ->
      fileHash e = h ->
      getStoredKernelId s = e_kernelId e)
  /\ (Forall (fun x => fileHash x <> h) entries -> getStoredKernelId s = None).
Proof.
  intros Hget h. unfold getStoredKernelId. rewrite Hget. fold h.
  assert (Hf : forall l, Forall (fun x => fileHash x <> h) l ->
                         Forall (fun x => String.eqb (fileHash x) h = false) l).
  { intros l Hl. induction Hl as [| x l Hx _ IH]; constructor; [| exact IH].
    apply String.eqb_neq, Hx. }
  split.
  - intros pre e post -> Hpre He.
    rewrite (find_first_match _ pre e post); [reflexivity | auto |].
    apply String.eqb_eq, He.
  - intros Hall. rewrite find_no_match; auto.
Qed.

(** C9: constructed with no notebook JSON, or with JSON that lacks a
    metadata block, the model holds the default notebook content for the
    python version given (3 when none is): [nbformat] 4,
    [nbformat_minor] 2 and a [language_info] block named ['python'],
    with file extension ['.py'] and the python version number as its
    version. JSON that has a metadata block is kept. Hence
    [notebookJson.metadata] is defined after every construction. *)
Theorem new_BaseNotebookModel_default_content
    (isTrusted0 : bool) (file0 : Uri) (memento0 : gmap string StoredValue)
    (crypto0 : ICryptoUtils) (json0 : option (NotebookContent J))
    (indent0 : option string) (python0 : option Z) :
  let s := new_BaseNotebookModel isTrusted0 file0 memento0 crypto0 json0 indent0 python0 in
  is_Some (nc_metadata (notebookJson s))
  /\ (json0 ≫= nc_metadata = None ->
      notebookJson s = getDefaultNotebookContent (default 3 python0)
      /\ nc_nbformat (notebookJson s) = Some 4
      /\ nc_nbformat_minor (notebookJson s) = Some 2
      /\ exists li,
          nc_metadata (notebookJson s) ≫= language_info = Some li
          /\ li_name li = "python"
          /\ file_extension li = Some ".py"
          /\ li_version li = Some (JsNumber (default 3 python0)))
  /\ (forall json, json0 = Some json -> is_Some (nc_metadata json) ->
      notebookJson s = json).
Proof.
  intros s. subst s. unfold new_BaseNotebookModel. simpl.
  split; [apply ensureNotebookJson_metadata |]. split.
  - intros Hno. unfold ensureNotebookJson. simpl.
    assert (E : nc_metadata (default emptyContent json0) = None).
    { destruct json0 as [j |]; [exact Hno | reflexivity]. }
    rewrite E. simpl. repeat split. eexists. repeat split.
  - intros json -> [md Hmd]. unfold ensureNotebookJson. simpl. rewrite Hmd. reflexivity.
Qed.

End ModelFacts.

(** ** The claims at sample inputs *)

Local Abbreviation sampleUpdate :=
  (updateNotebookMetadata carriedInterpreter isLiveKernel taggedDigest).

(** [language_info.version] "3.7.0" against an interpreter "3.8.5": the
    version is rewritten and the change reported. *)
Example language_version_sample :
  sampleUpdate (Some sampleMetadata) (Some pythonConnection)
  = (Some {| language_info :=
               Some (set_li_version (Some (JsString "3.8.5")) sampleLanguageInfo);
             kernelspec :=
               Some {| ks_name := "Python 3.8";
                       ks_display_name := "Python 3.8";
                       ks_metadata :=
                         Some {| ks_interpreter :=
                                   Some {| hash := "sha256:/usr/bin/python3" |} |} |};
             orig_nbformat := Some 2 |},
     Returns {| changed := true; kernelId := None |}).
Proof. reflexivity. Qed.

(** The default content for python 3. *)
Example default_content_python3 :
  nc_metadata (getDefaultNotebookContent (C := unit) 3) ≫= language_info
  = Some {| codemirror_mode := Some {| cm_name := "ipython"; cm_version := 3 |};
            file_extension := Some ".py";
            mimetype := Some "text/x-python";
            li_name := "python";
            nbconvert_exporter := Some "python";
            pygments_lexer := Some "ipython3";
            li_version := Some (JsNumber 3) |}.
Proof. vm_compute. reflexivity. Qed.

(** A python connection without its interpreter makes the call raise. *)
Example ill_typed_connection_throws :
  sampleUpdate (Some sampleMetadata)
    (Some {| kind := "startUsingPythonInterpreter"; kernelModel := None;
             kernelSpec := None; interpreter := None |})
  = (Some (set_language_info None sampleMetadata), ThrowsTypeError).
Proof. reflexivity. Qed.

Lemma updateNotebookMetadata_changed_only_when_differs_witness :
  well_typed (Some specConnection) = true
  /\ exists m' r,
      sampleUpdate (Some sampleMetadata) (Some specConnection) = (Some m', Returns r)
      /\ (changed r = true -> m' <> sampleMetadata \/ kernelId r <> None)
      /\ (changed r = false -> m' = sampleMetadata /\ kernelId r = None)
      /\ orig_nbformat m' = orig_nbformat sampleMetadata.
Proof.
  split; [reflexivity |].
  apply (updateNotebookMetadata_changed_only_when_differs
           carriedInterpreter isLiveKernel taggedDigest
           sampleMetadata (Some specConnection)).
  reflexivity.
Defined.

Lemma updateNotebookMetadata_language_version_witness :
  exists m' r,
    sampleUpdate (Some sampleMetadata) (Some pythonConnection) = (Some m', Returns r)
    /\ language_info m'
       = Some (set_li_version (Some (JsString "3.8.5")) sampleLanguageInfo)
    /\ ((language_info m' <> language_info sampleMetadata /\ changed r = true)
        <-> li_version sampleLanguageInfo <> Some (JsString "3.8.5"))
    /\ (f_changed (languageInfoStep carriedInterpreter (Some pythonConnection)
                     (frame0 sampleMetadata)) = true
        <-> li_version sampleLanguageInfo <> Some (JsString "3.8.5"))
    /\ (li_version sampleLanguageInfo = Some (JsString "3.8.5") ->
        languageInfoStep carriedInterpreter (Some pythonConnection) (frame0 sampleMetadata)
        = frame0 sampleMetadata).
Proof.
  apply (updateNotebookMetadata_language_version
           carriedInterpreter isLiveKernel taggedDigest
           sampleMetadata (Some pythonConnection)
           sampleLanguageInfo samplePython {| raw := "3.8.5" |});
    reflexivity.
Defined.

Lemma updateNotebookMetadata_clears_language_info_witness :
  exists m' r,
    sampleUpdate (Some sampleMetadata) None = (Some m', Returns r)
    /\ language_info m' = None
    /\ changed r = true.
Proof.
  apply (updateNotebookMetadata_clears_language_info
           carriedInterpreter isLiveKernel taggedDigest sampleMetadata None).
  - exists sampleLanguageInfo. reflexivity.
  - reflexivity.
  - reflexivity.
Defined.

Lemma updateNotebookMetadata_kernelspec_witness :
  (exists m',
      sampleUpdate (Some sampleMetadata) (Some specConnection)
      = (Some m', Returns {| changed := true; kernelId := Some "kernel-1" |})
      /\ kernelspec m'
         = Some {| ks_name := "python3"; ks_display_name := "python3";
                   ks_metadata := None |})
  /\ (exists m' r,
        sampleUpdate (Some sampleMetadata) (Some pythonConnection) = (Some m', Returns r)
        /\ kernelspec m'
           = Some {| ks_name := "Python 3.8"; ks_display_name := "Python 3.8";
                     ks_metadata :=
                       Some {| ks_interpreter :=
                                 Some {| hash := taggedDigest "/usr/bin/python3" |} |} |}
        /\ changed r = true).
Proof.
  split.
  - apply (proj1 (updateNotebookMetadata_kernelspec
                    carriedInterpreter isLiveKernel taggedDigest
                    sampleMetadata (Some specConnection)) sampleSpec);
      reflexivity.
  - destruct (proj2 (updateNotebookMetadata_kernelspec
                       carriedInterpreter isLiveKernel taggedDigest
                       sampleMetadata (Some pythonConnection))
                pythonConnection samplePython eq_refl eq_refl eq_refl eq_refl)
      as (m' & r & Hu & _ & _ & _ & Hnew & _).
    exists m', r. split; [exact Hu |].
    apply Hnew. left. simpl. discriminate.
Defined.

(** C4 fails as stated: the connection carries only a Python interpreter,
    the kernelspec already has the interpreter's display name as its name
    and display name, and the call returns without storing any
    interpreter hash. *)
Lemma kernelspec_hash_not_stored :
  kernelSpecOrModelOf isLiveKernel (Some pythonConnection) = None
  /\ kind pythonConnection = "startUsingPythonInterpreter"
  /\ sampleUpdate (Some namedMetadata) (Some pythonConnection)
     = (Some namedMetadata, Returns {| changed := false; kernelId := None |})
  /\ (kernelspec namedMetadata ≫= ks_metadata) ≫= ks_interpreter
     <> Some {| hash := taggedDigest (path samplePython) |}.
Proof.
  repeat split; discriminate.
Qed.

(** C5 fails as stated: the getter hands out the document's own metadata
    object, a reconciliation through it mutates the document, and
    [isDirty] still answers [false]. *)
Lemma isDirty_misses_mutation :
  exists m0 m1,
    metadata freshModel = LiveMetadata (Some m0)
    /\ sampleUpdate (Some m0) None
       = (Some m1, Returns {| changed := true; kernelId := None |})
    /\ notebookJson (writeLiveMetadata (Some m1) freshModel) <> notebookJson freshModel
    /\ isDirty (writeLiveMetadata (Some m1) freshModel) = false.
Proof.
  do 2 eexists. split; [vm_compute; reflexivity |].
  split; [vm_compute; reflexivity |].
  split; [vm_compute; discriminate | reflexivity].
Qed.

Lemma getStoredKernelId_first_match_witness :
  getStoredKernelId sampleModel = Some "kernel-b".
Proof.
  refine (proj1 (getStoredKernelId_first_match sampleModel sampleEntries _)
            [ {| fileHash := "h:file:///other.ipynb"; e_kernelId := Some "kernel-a" |} ]
            {| fileHash := "h:file:///nb.ipynb"; e_kernelId := Some "kernel-b" |}
            [ {| fileHash := "h:file:///nb.ipynb"; e_kernelId := Some "kernel-c" |} ]
            _ _ _).
  - vm_compute. reflexivity.
  - reflexivity.
  - constructor; [vm_compute; discriminate | constructor].
  - reflexivity.
Defined.

Lemma kernelIdList_capped_witness :
  (length (fold_left applyListOp
             [Remember "h:a" (Some "kernel-a"); Lookup "h:a"; Remember "h:b" None]
             sampleEntries) <= 40)%nat.
Proof.
  apply (kernelIdList_capped sampleEntries).
  unfold MaximumKernelIdListSize. simpl. lia.
Defined.

Lemma new_BaseNotebookModel_default_content_witness :
  notebookJson freshModel = getDefaultNotebookContent 3
  /\ nc_nbformat (notebookJson freshModel) = Some 4
  /\ nc_nbformat_minor (notebookJson freshModel) = Some 2
  /\ exists li,
      nc_metadata (notebookJson freshModel) ≫= language_info = Some li
      /\ li_name li = "python"
      /\ file_extension li = Some ".py"
      /\ li_version li = Some (JsNumber 3).
Proof.
  apply (proj1 (proj2 (new_BaseNotebookModel_default_content
                         false sampleFile ∅ sampleCrypto None None None))).
  reflexivity.
Defined.

(** * Further properties of the reconciliation *)

Lemma str_neq_refl (a : string) : str_neq a a = false.
Proof. apply str_neq_false. reflexivity. Qed.

Lemma NotebookMetadata_ext (m1 m2 : NotebookMetadata) :
  language_info m1 = language_info m2 ->
  kernelspec m1 = kernelspec m2 ->
  orig_nbformat m1 = orig_nbformat m2 ->
  m1 = m2.
Proof. destruct m1, m2; simpl; congruence. Qed.

Lemma well_typed_false (kc : option KernelConnectionMetadata) :
  well_typed kc = false <->
  exists c, kc = Some c
            /\ kind c = "startUsingPythonInterpreter"
            /\ interpreter c = None.
Proof.
  split.
  - destruct kc as [c |]; simpl; [| discriminate].
    destruct (String.eqb (kind c) "startUsingPythonInterpreter") eqn:Ek; [| discriminate].
    intros H. apply bool_decide_eq_false in H.
    exists c. split; [reflexivity |]. split; [apply String.eqb_eq, Ek |].
    destruct (interpreter c); [exfalso; apply H; eauto | reflexivity].
  - intros (c & -> & Hk & Hi). simpl. rewrite Hk, Hi. reflexivity.
Qed.

Section ReconciliationMore.

Variable getInterpreter : option KernelConnectionMetadata -> option PythonEnvironment.
Variable hasKernelModel : KernelConnectionMetadata -> bool.
Variable sha256_hex : string -> string.

Local Abbreviation update := (updateNotebookMetadata getInterpreter hasKernelModel sha256_hex).
Local Abbreviation langStep := (languageInfoStep getInterpreter).
Local Abbreviation ksStep := (kernelspecStep hasKernelModel sha256_hex).
Local Abbreviation specOf := (kernelSpecOrModelOf hasKernelModel).

(** The language step has nothing left to do on a frame whose
    [language_info] is the one the step produced. *)
Lemma langStep_settled (kc : option KernelConnectionMetadata) (fr fr2 : Frame) :
  language_info (f_metadata fr2) = language_info (f_metadata (langStep kc fr)) ->
  langStep kc fr2 = fr2.
Proof.
  unfold languageInfoStep.
  destruct (getInterpreter kc) as [i |].
  - destruct (version i) as [v |]; [| reflexivity].
    destruct (language_info (f_metadata fr)) as [li |] eqn:Eli.
    + destruct (js_neq_string (li_version li) (raw v)) eqn:En; simpl; intros ->.
      * simpl. rewrite str_neq_refl. reflexivity.
      * rewrite Eli, En. reflexivity.
    + intros ->. rewrite Eli. reflexivity.
  - destruct (language_info (f_metadata fr)) as [li |] eqn:Eli; simpl; intros ->.
    + reflexivity.
    + rewrite Eli. reflexivity.
Qed.

(** What the language step leaves in the block: nothing where there was
    nothing, and else the block it found with at most the version
    rewritten. *)
Lemma langStep_block (kc : option KernelConnectionMetadata) (fr : Frame) :
  match language_info (f_metadata (langStep kc fr)) with
  | Some li' =>
      exists li, language_info (f_metadata fr) = Some li
                 /\ li' = set_li_version (li_version li') li
  | None => True
  end.
Proof.
  unfold languageInfoStep.
  destruct (getInterpreter kc) as [i |].
  - destruct (version i) as [v |].
    + destruct (language_info (f_metadata fr)) as [li |] eqn:Eli.
      * destruct (js_neq_string (li_version li) (raw v)); simpl.
        -- exists li. split; reflexivity.
        -- rewrite Eli. exists li. split; [reflexivity |].
           symmetry. apply set_li_version_same.
      * rewrite Eli. exact Logic.I.
    + destruct (language_info (f_metadata fr)) as [li |] eqn:Eli; [| exact Logic.I].
      exists li. split; [reflexivity |]. symmetry. apply set_li_version_same.
  - destruct (language_info (f_metadata fr)) as [li |] eqn:Eli; simpl.
    + exact Logic.I.
    + rewrite Eli. exact Logic.I.
Qed.

(** The kernelspec step when the connection carries a spec or model. *)
Lemma ksStep_spec (kc : option KernelConnectionMetadata) (fr : Frame)
    (spec : KernelSpecOrModel) :
  specOf kc = Some spec ->
  f_kernelId fr = None ->
  exists fr',
    ksStep kc fr = inl fr'
    /\ kernelspec (f_metadata fr')
       = Some (namedFrom spec (kernelspec (f_metadata fr) ≫= ks_metadata))
    /\ f_kernelId fr' = id spec
    /\ (is_Some (id spec) -> f_changed fr' = true).
Proof.
  intros Hs Hid. unfold kernelspecStep. rewrite Hs, !js_or_empty_fallback.
  destruct (kernelspec (f_metadata fr)) as [ks |] eqn:Eks.
  - destruct (_ || _ || _) eqn:Ec.
    + eexists. split; [reflexivity |]. simpl. auto.
    + apply orb_false_iff in Ec. destruct Ec as [Ec E3].
      apply orb_false_iff in Ec. destruct Ec as [E1 E2].
      apply str_neq_false in E1, E2.
      rewrite Hid in E3. unfold opt_id_neq in E3.
      apply negb_false_iff, bool_decide_eq_true in E3.
      exists fr. split; [reflexivity |]. rewrite Eks, Hid, <- E3.
      split; [| split; [reflexivity | intros [x Hx]; discriminate]].
      unfold namedFrom. rewrite <- E1, <- E2. destruct ks; reflexivity.
  - eexists. split; [reflexivity |]. simpl. auto.
Qed.

(** The kernelspec step on a block that already has the names of the spec
    or model: the block stays, and the flag is raised when the spec or
    model has an id. *)
Lemma ksStep_spec_settled (kc : option KernelConnectionMetadata) (m : NotebookMetadata)
    (spec : KernelSpecOrModel) (md : option KernelspecMetadata) :
  specOf kc = Some spec ->
  kernelspec m = Some (namedFrom spec md) ->
  ksStep kc (frame0 m)
  = inl {| f_metadata := m;
           f_changed := bool_decide (is_Some (id spec));
           f_kernelId := id spec |}.
Proof.
  intros Hs Hk. unfold kernelspecStep. rewrite Hs, !js_or_empty_fallback.
  simpl. rewrite Hk. simpl. rewrite !str_neq_refl. simpl.
  destruct (id spec) as [k |] eqn:Eid; simpl.
  - f_equal. f_equal. destruct m; simpl in *. rewrite Hk. reflexivity.
  - reflexivity.
Qed.

(** The kernelspec step when the connection carries only a Python
    interpreter. *)
Lemma ksStep_python (c : KernelConnectionMetadata) (i : PythonEnvironment) (fr : Frame) :
  specOf (Some c) = None ->
  kind c = "startUsingPythonInterpreter" ->
  interpreter c = Some i ->
  exists fr',
    ksStep (Some c) fr = inl fr'
    /\ ks_name <$> kernelspec (f_metadata fr') = Some (interpreterName i)
    /\ ks_display_name <$> kernelspec (f_metadata fr') = Some (interpreterName i)
    /\ f_kernelId fr' = f_kernelId fr.
Proof.
  intros Hs Hk Hi. unfold kernelspecStep. rewrite Hs, Hk, Hi. simpl.
  destruct (_ || _) eqn:Ec.
  - eexists. split; [reflexivity |]. simpl. auto.
  - apply orb_false_iff in Ec. destruct Ec as [E1 E2].
    apply opt_str_neq_false in E1, E2.
    exists fr. auto.
Qed.

Lemma ksStep_python_settled (c : KernelConnectionMetadata) (i : PythonEnvironment)
    (fr : Frame) :
  specOf (Some c) = None ->
  kind c = "startUsingPythonInterpreter" ->
  interpreter c = Some i ->
  ks_name <$> kernelspec (f_metadata fr) = Some (interpreterName i) ->
  ks_display_name <$> kernelspec (f_metadata fr) = Some (interpreterName i) ->
  ksStep (Some c) fr = inl fr.
Proof.
  intros Hs Hk Hi E1 E2. unfold kernelspecStep. rewrite Hs, Hk, Hi. simpl.
  apply opt_str_neq_false in E1, E2. rewrite E1, E2. reflexivity.
Qed.

(** The kernelspec step when the connection carries neither a spec or
    model nor the python-interpreter kind. *)
Lemma ksStep_idle (kc : option KernelConnectionMetadata) (fr : Frame) :
  specOf kc = None ->
  (forall c, kc = Some c -> kind c <> "startUsingPythonInterpreter") ->
  ksStep kc fr = inl fr.
Proof.
  intros Hs Hk. unfold kernelspecStep. rewrite Hs.
  destruct kc as [c |]; [| reflexivity].
  destruct (String.eqb (kind c) "startUsingPythonInterpreter") eqn:E; [| reflexivity].
  apply String.eqb_eq in E. exfalso. exact (Hk c eq_refl E).
Qed.

(** A connection is of one of three sorts for the kernelspec step. *)
Lemma connection_sorts (kc : option KernelConnectionMetadata) :
  well_typed kc = true ->
  (exists spec, specOf kc = Some spec)
  \/ (exists c i, kc = Some c /\ specOf kc = None
                  /\ kind c = "startUsingPythonInterpreter"
                  /\ interpreter c = Some i)
  \/ (specOf kc = None
      /\ forall c, kc = Some c -> kind c <> "startUsingPythonInterpreter").
Proof.
  intros W.
  destruct (specOf kc) as [spec |] eqn:Hs; [left; eauto | right].
  destruct kc as [c |]; [| right; split; [reflexivity | discriminate]].
  simpl in W.
  destruct (String.eqb (kind c) "startUsingPythonInterpreter") eqn:E.
  - left. apply bool_decide_eq_true in W. destruct W as [i Hi].
    exists c, i. apply String.eqb_eq in E. auto.
  - right. split; [reflexivity |]. intros c' [= <-]. apply String.eqb_neq, E.
Qed.

(** Two calls in a row, for every sort of connection. *)
Lemma update_twice (m : NotebookMetadata) (kc : option KernelConnectionMetadata) :
  well_typed kc = true ->
  exists m' r,
    update (Some m) kc = (Some m', Returns r)
    /\ kernelId r = specOf kc ≫= id
    /\ update (Some m') kc
       = (Some m', Returns {| changed := bool_decide (is_Some (specOf kc ≫= id));
                              kernelId := specOf kc ≫= id |}).
Proof.
  intros W.
  destruct (langStep_frame getInterpreter kc (frame0 m)) as (Hk1 & _ & Hid1).
  simpl in Hk1, Hid1.
  assert (Hsettled : forall fr, ksStep kc (langStep kc (frame0 m)) = inl fr ->
                                langStep kc (frame0 (f_metadata fr)) = frame0 (f_metadata fr)).
  { intros fr Hfr. apply (langStep_settled kc (frame0 m)).
    apply (ksStep_frame hasKernelModel sha256_hex kc _ _ Hfr). }
  destruct (connection_sorts kc W)
    as [[spec Hs] | [(c & i & -> & Hs & Hkind & Hi) | [Hs Hkind]]].
  - destruct (ksStep_spec kc (langStep kc (frame0 m)) spec Hs Hid1)
      as (fr & Hfr & Hks & Hid & _).
    exists (f_metadata fr), {| changed := f_changed fr; kernelId := f_kernelId fr |}.
    split; [apply update_steps, Hfr |]. rewrite Hs. simpl.
    split; [exact Hid |].
    unfold updateNotebookMetadata. fold (frame0 (f_metadata fr)).
    rewrite (Hsettled fr Hfr), (ksStep_spec_settled kc _ spec _ Hs Hks). reflexivity.
  - destruct (ksStep_python c i (langStep (Some c) (frame0 m)) Hs Hkind Hi)
      as (fr & Hfr & E1 & E2 & Hid).
    exists (f_metadata fr), {| changed := f_changed fr; kernelId := f_kernelId fr |}.
    split; [apply update_steps, Hfr |]. rewrite Hs. simpl.
    split; [congruence |].
    unfold updateNotebookMetadata. fold (frame0 (f_metadata fr)).
    rewrite (Hsettled fr Hfr),
      (ksStep_python_settled c i (frame0 (f_metadata fr)) Hs Hkind Hi E1 E2).
    reflexivity.
  - pose proof (ksStep_idle kc (langStep kc (frame0 m)) Hs Hkind) as Hfr.
    exists (f_metadata (langStep kc (frame0 m))),
      {| changed := f_changed (langStep kc (frame0 m));
         kernelId := f_kernelId (langStep kc (frame0 m)) |}.
    split; [apply update_steps, Hfr |]. rewrite Hs. simpl.
    split; [exact Hid1 |].
    unfold updateNotebookMetadata. fold (frame0 (f_metadata (langStep kc (frame0 m)))).
    rewrite (Hsettled _ Hfr), (ksStep_idle kc _ Hs Hkind). reflexivity.
Qed.

(** X1: reconciling is idempotent on the metadata. A second call with the
    same connection leaves the metadata object exactly as the first call
    left it, and returns the same kernel id. *)
Theorem updateNotebookMetadata_idempotent
    (m : NotebookMetadata) (kc : option KernelConnectionMetadata) :
  well_typed kc = true ->
  exists m' r r',
    update (Some m) kc = (Some m', Returns r)
    /\ update (Some m') kc = (Some m', Returns r')
    /\ kernelId r' = kernelId r.
Proof.
  intros W. destruct (update_twice m kc W) as (m' & r & H1 & Hid & H2).
  exists m', r. eexists. split; [exact H1 |]. split; [exact H2 |].
  simpl. symmetry. exact Hid.
Qed.

(** X2: the flag of a call on metadata that is already reconciled. Such a
    call changes nothing, and it still reports [changed = true] exactly
    when the connection carries a kernel spec or model that has an id:
    the comparison [kernelId !== kernelSpecOrModel.id] is made against the
    local variable, which is [undefined] at that point. *)
Theorem updateNotebookMetadata_changed_when_settled
    (m : NotebookMetadata) (kc : option KernelConnectionMetadata) :
  well_typed kc = true ->
  exists m' r r',
    update (Some m) kc = (Some m', Returns r)
    /\ update (Some m') kc = (Some m', Returns r')
    /\ (changed r' = true
        <-> exists spec k, specOf kc = Some spec /\ id spec = Some k).
Proof.
  intros W. destruct (update_twice m kc W) as (m' & r & H1 & _ & H2).
  exists m', r. eexists. split; [exact H1 |]. split; [exact H2 |].
  simpl. rewrite bool_decide_eq_true. split.
  - intros [k Hk]. destruct (specOf kc) as [spec |]; [| discriminate].
    exists spec, k. auto.
  - intros (spec & k & -> & Hk). simpl. rewrite Hk. eauto.
Qed.

(** X3: the kernel id a call returns is the id of the kernel model or
    spec the connection carries, and [undefined] when it carries neither
    (or that one has no id); it does not depend on the metadata. *)
Theorem updateNotebookMetadata_kernelId
    (m : NotebookMetadata) (kc : option KernelConnectionMetadata) :
  well_typed kc = true ->
  exists m' r,
    update (Some m) kc = (Some m', Returns r)
    /\ (forall spec, specOf kc = Some spec -> kernelId r = id spec)
    /\ (specOf kc = None -> kernelId r = None).
Proof.
  intros W. destruct (update_twice m kc W) as (m' & r & H1 & Hid & _).
  exists m', r. split; [exact H1 |]. rewrite Hid.
  split; [intros spec -> | intros ->]; reflexivity.
Qed.

(** X4: on a metadata object, a call raises exactly when the connection
    carries no kernel spec or model, is of kind
    ['startUsingPythonInterpreter'] and has no interpreter. When it
    raises, the kernelspec block is as it was. *)
Theorem updateNotebookMetadata_throws_iff
    (m : NotebookMetadata) (kc : option KernelConnectionMetadata) :
  (snd (update (Some m) kc) = ThrowsTypeError
   <-> specOf kc = None
       /\ exists c, kc = Some c
                    /\ kind c = "startUsingPythonInterpreter"
                    /\ interpreter c = None)
  /\ (snd (update (Some m) kc) = ThrowsTypeError ->
      kernelspec <$> fst (update (Some m) kc) = Some (kernelspec m)).
Proof.
  destruct (langStep_frame getInterpreter kc (frame0 m)) as (Hk1 & _ & Hid1).
  simpl in Hk1, Hid1.
  assert (Hthrow : specOf kc = None ->
                   (exists c, kc = Some c
                              /\ kind c = "startUsingPythonInterpreter"
                              /\ interpreter c = None) ->
                   ksStep kc (langStep kc (frame0 m))
                   = inr (f_metadata (langStep kc (frame0 m)))).
  { intros Hs (c & -> & Hkind & Hi). unfold kernelspecStep.
    rewrite Hs, Hkind, Hi. reflexivity. }
  split; [split |].
  - intros Ht.
    destruct (well_typed kc) eqn:W.
    + destruct (update_twice m kc W) as (m' & r & H1 & _). rewrite H1 in Ht. discriminate.
    + destruct (specOf kc) as [spec |] eqn:Hs.
      * destruct (ksStep_spec kc (langStep kc (frame0 m)) spec Hs Hid1) as (fr & Hfr & _).
        rewrite (update_steps _ _ _ m kc fr Hfr) in Ht. discriminate.
      * split; [reflexivity |]. apply well_typed_false, W.
  - intros [Hs Hc]. unfold updateNotebookMetadata. fold (frame0 m).
    rewrite (Hthrow Hs Hc). reflexivity.
  - intros Ht. unfold updateNotebookMetadata in *. fold (frame0 m) in *.
    destruct (ksStep kc (langStep kc (frame0 m))) as [fr | m'] eqn:Hfr; [discriminate |].
    simpl. f_equal.
    unfold kernelspecStep in Hfr.
    destruct (specOf kc) as [spec |].
    + destruct (kernelspec (f_metadata (langStep kc (frame0 m))));
        [destruct (_ || _ || _) |]; discriminate.
    + destruct kc as [c |]; [| discriminate].
      destruct (String.eqb (kind c) "startUsingPythonInterpreter"); [| discriminate].
      destruct (interpreter c); [destruct (_ || _); discriminate |].
      injection Hfr as <-. exact Hk1.
Qed.

(** X5: when the connection carries a kernel spec or model, after the
    call the kernelspec block has the names of that spec or model (each
    falling back to the other, then to the empty string) and keeps the
    [metadata] the block had before (none for a new block); the call
    returns the spec's id, and it reports [changed = true] whenever that
    id is defined. *)
Theorem updateNotebookMetadata_spec_names
    (m : NotebookMetadata) (kc : option KernelConnectionMetadata)
    (spec : KernelSpecOrModel) :
  specOf kc = Some spec ->
  exists m' r,
    update (Some m) kc = (Some m', Returns r)
    /\ kernelspec m' = Some (namedFrom spec (kernelspec m ≫= ks_metadata))
    /\ kernelId r = id spec
    /\ (is_Some (id spec) -> changed r = true).
Proof.
  intros Hs.
  destruct (langStep_frame getInterpreter kc (frame0 m)) as (Hk1 & _ & Hid1).
  simpl in Hk1, Hid1.
  destruct (ksStep_spec kc (langStep kc (frame0 m)) spec Hs Hid1)
    as (fr & Hfr & Hks & Hid & Hc).
  exists (f_metadata fr), {| changed := f_changed fr; kernelId := f_kernelId fr |}.
  split; [apply update_steps, Hfr |]. rewrite Hk1 in Hks. auto.
Qed.

(** X6: the kernelspec block is only ever touched for a connection that
    carries a kernel spec or model or is of kind
    ['startUsingPythonInterpreter']. For any other connection, and for an
    absent one, the call returns with the block as it was and no kernel
    id. *)
Theorem updateNotebookMetadata_kernelspec_untouched
    (m : NotebookMetadata) (kc : option KernelConnectionMetadata) :
  specOf kc = None ->
  (forall c, kc = Some c -> kind c <> "startUsingPythonInterpreter") ->
  exists m' r,
    update (Some m) kc = (Some m', Returns r)
    /\ kernelspec m' = kernelspec m
    /\ kernelId r = None.
Proof.
  intros Hs Hkind.
  destruct (langStep_frame getInterpreter kc (frame0 m)) as (Hk1 & _ & Hid1).
  simpl in Hk1, Hid1.
  pose proof (ksStep_idle kc (langStep kc (frame0 m)) Hs Hkind) as Hfr.
  do 2 eexists. split; [apply update_steps, Hfr |]. simpl. auto.
Qed.

(** X7: the metadata of the default notebook content stores the python
    version as a number, which is never strictly equal to an interpreter's
    raw version string. So the first reconciliation of a default notebook
    against an interpreter that has a version always rewrites the version
    to that string and reports [changed = true]. *)
Theorem updateNotebookMetadata_on_default_content
    (pythonNumber0 : Z) (kc : option KernelConnectionMetadata)
    (i : PythonEnvironment) (v : PythonVersion) :
  getInterpreter kc = Some i ->
  version i = Some v ->
  well_typed kc = true ->
  exists m' r,
    update (nc_metadata (getDefaultNotebookContent (C := unit) pythonNumber0)) kc
    = (Some m', Returns r)
    /\ changed r = true
    /\ li_version <$> language_info m' = Some (Some (JsString (raw v)))
    /\ li_name <$> language_info m' = Some "python".
Proof.
  intros Hi Hv W. unfold getDefaultNotebookContent. cbn [nc_metadata].
  match goal with |- context [Some ?x] => set (m0 := x) end.
  destruct (ksStep_returns hasKernelModel sha256_hex kc (langStep kc (frame0 m0)) W)
    as [fr Hfr].
  exists (f_metadata fr), {| changed := f_changed fr; kernelId := f_kernelId fr |}.
  split; [apply update_steps, Hfr |].
  destruct (ksStep_frame _ _ _ _ _ Hfr) as [Hl _]. rewrite Hl.
  assert (E : langStep kc (frame0 m0)
              = {| f_metadata :=
                     set_language_info
                       (set_li_version (Some (JsString (raw v))) <$> language_info m0) m0;
                   f_changed := true; f_kernelId := None |}).
  { unfold languageInfoStep. rewrite Hi, Hv. reflexivity. }
  simpl. split.
  - destruct (ksStep_cases _ _ _ _ _ Hfr) as [-> | [Hc _]]; [rewrite E |]; auto.
  - rewrite E. split; reflexivity.
Qed.

(** X8: what a call never does to the language block. It never creates
    one, it never changes a field of it other than [version], and when an
    interpreter is derived that has no version the block is left as it
    is. *)
Theorem updateNotebookMetadata_language_info_block
    (m : NotebookMetadata) (kc : option KernelConnectionMetadata) :
  well_typed kc = true ->
  exists m' r,
    update (Some m) kc = (Some m', Returns r)
    /\ (forall li', language_info m' = Some li' ->
        exists li, language_info m = Some li
                   /\ li' = set_li_version (li_version li') li)
    /\ (forall i, getInterpreter kc = Some i -> version i = None ->
        language_info m' = language_info m).
Proof.
  intros W.
  destruct (ksStep_returns hasKernelModel sha256_hex kc (langStep kc (frame0 m)) W)
    as [fr Hfr].
  exists (f_metadata fr), {| changed := f_changed fr; kernelId := f_kernelId fr |}.
  split; [apply update_steps, Hfr |].
  destruct (ksStep_frame _ _ _ _ _ Hfr) as [Hl _]. rewrite Hl.
  split.
  - intros li' Hli'. pose proof (langStep_block kc (frame0 m)) as Hb.
    rewrite Hli' in Hb. exact Hb.
  - intros i Hi Hv. unfold languageInfoStep. rewrite Hi, Hv. reflexivity.
Qed.

End ReconciliationMore.

(** * Further properties of the base notebook model *)

Section ModelMore.

Context {J I : Type}.
Variable getJupyterCells : BaseNotebookModel J -> option (list J).

Local Abbreviation model := (BaseNotebookModel J).
Local Abbreviation exec := (run getJupyterCells).

Lemma ensureNotebookJson_defined (s : model) :
  is_Some (nc_metadata (notebookJson s)) -> ensureNotebookJson s = s.
Proof.
  intros [md Hmd]. unfold ensureNotebookJson. rewrite Hmd. reflexivity.
Qed.

(** An operation changes nothing but the two flags and the count of
    fired events, on an instance whose document has metadata. *)
Lemma step_document (s : model) (o : Op) :
  is_Some (nc_metadata (notebookJson s)) ->
  notebookJson (step getJupyterCells s o) = notebookJson s
  /\ m_kernelId (step getJupyterCells s o) = m_kernelId s
  /\ globalMemento (step getJupyterCells s o) = globalMemento s.
Proof.
  intros H. destruct o; simpl; auto; rewrite (ensureNotebookJson_defined s H); auto.
Qed.

Lemma run_document (ops : list Op) (s : model) :
  is_Some (nc_metadata (notebookJson s)) ->
  notebookJson (exec ops s) = notebookJson s
  /\ m_kernelId (exec ops s) = m_kernelId s
  /\ globalMemento (exec ops s) = globalMemento s.
Proof.
  revert s. induction ops as [| o ops IH]; intros s H; simpl; [auto |].
  destruct (step_document s o H) as (E1 & E2 & E3).
  destruct (IH (step getJupyterCells s o)) as (F1 & F2 & F3).
  { rewrite E1. exact H. }
  rewrite F1, F2, F3. auto.
Qed.

Lemma step_flags (s : model) (o : Op) :
  isDisposed (step getJupyterCells s o) = isDisposed s || isDispose o
  /\ isTrusted (step getJupyterCells s o) = isTrusted s || isTrust o
  /\ disposedFired (step getJupyterCells s o)
     = (disposedFired s + (if isDispose o then 1 else 0))%nat.
Proof.
  unfold isDisposed, isTrusted.
  destruct o; simpl; unfold ensureNotebookJson;
    try destruct (nc_metadata (notebookJson s)); simpl;
    rewrite ?orb_false_r, ?orb_true_r, ?Nat.add_0_r, ?Nat.add_1_r; auto.
Qed.

(** X9: none of the operations of the class changes the document. After
    construction and any sequence of [dispose], [trust], [getContent] and
    [getRawContent], the notebook JSON, the remembered kernel id and the
    memento are what the constructor left. *)
Theorem BaseNotebookModel_document_invariant
    (isTrusted0 : bool) (file0 : Uri) (memento0 : gmap string StoredValue)
    (crypto0 : ICryptoUtils) (json0 : option (NotebookContent J))
    (indent0 : option string) (python0 : option Z) (ops : list Op) :
  let s := new_BaseNotebookModel isTrusted0 file0 memento0 crypto0 json0 indent0 python0 in
  notebookJson (exec ops s) = notebookJson s
  /\ m_kernelId (exec ops s) = m_kernelId s
  /\ globalMemento (exec ops s) = memento0.
Proof.
  intros s.
  assert (H : is_Some (nc_metadata (notebookJson s))).
  { subst s. unfold new_BaseNotebookModel. simpl. apply ensureNotebookJson_metadata. }
  destruct (run_document ops s H) as (E1 & E2 & E3).
  rewrite E1, E2, E3. repeat split.
  subst s. unfold new_BaseNotebookModel, ensureNotebookJson. simpl.
  destruct (nc_metadata (default emptyContent json0)); reflexivity.
Qed.

(** X10: the two flags after a sequence of operations. [isDisposed] is
    true exactly when it was true before or the sequence has a
    [dispose()]; [isTrusted] is true exactly when it was true before or
    the sequence has a [trust()]. Neither operation touches the other
    flag, and nothing clears one. *)
Theorem BaseNotebookModel_flags_after (s : model) (ops : list Op) :
  isDisposed (exec ops s) = isDisposed s || existsb isDispose ops
  /\ isTrusted (exec ops s) = isTrusted s || existsb isTrust ops.
Proof.
  revert s. induction ops as [| o ops IH]; intros s; simpl.
  - rewrite !orb_false_r. auto.
  - destruct (IH (step getJupyterCells s o)) as [E1 E2].
    destruct (step_flags s o) as (F1 & F2 & _).
    rewrite E1, E2, F1, F2, !orb_assoc. auto.
Qed.

(** X11: [dispose()] is not guarded: every call fires the dispose event,
    also on an instance that is already disposed. After a sequence of
    operations the event has fired once more for each [dispose()] in
    it. *)
Theorem dispose_fires_each_time (s : model) (ops : list Op) :
  disposedFired (exec ops s)
  = (disposedFired s + length (List.filter isDispose ops))%nat
  /\ disposedFired (dispose (dispose s)) = (disposedFired s + 2)%nat.
Proof.
  split.
  - revert s. induction ops as [| o ops IH]; intros s; simpl.
    + lia.
    + rewrite IH. destruct (step_flags s o) as (_ & _ & F). rewrite F.
      destruct (isDispose o); simpl; lia.
  - simpl. lia.
Qed.

(** X12: the JSON that [generateNotebookJson] (and so [getRawContent])
    returns always has a metadata block, has the cells the subclass
    supplies and otherwise the fields of the instance's document; the
    cells are put in a copy, the document of the instance keeps its own.
    On an instance whose document has metadata the call changes nothing,
    and after a call a second one changes nothing. *)
Theorem generateNotebookJson_result (s : model) :
  let s' := fst (generateNotebookJson getJupyterCells s) in
  let json := snd (generateNotebookJson getJupyterCells s) in
  is_Some (nc_metadata json)
  /\ nc_cells json = getJupyterCells s'
  /\ nc_metadata json = nc_metadata (notebookJson s')
  /\ nc_nbformat json = nc_nbformat (notebookJson s')
  /\ nc_nbformat_minor json = nc_nbformat_minor (notebookJson s')
  /\ (is_Some (nc_metadata (notebookJson s)) -> s' = s)
  /\ (nc_metadata (notebookJson s) = None ->
      notebookJson s' = getDefaultNotebookContent (pythonNumber s))
  /\ fst (generateNotebookJson getJupyterCells s') = s'.
Proof.
  simpl. split; [apply ensureNotebookJson_metadata |].
  repeat split.
  - apply ensureNotebookJson_defined.
  - intros H. unfold ensureNotebookJson. rewrite H. reflexivity.
  - apply ensureNotebookJson_defined, ensureNotebookJson_metadata.
Qed.

(** X13: what the getter [metadata] hands out after construction. When
    the stored list has a first entry for the file with a non-empty kernel
    id, it is a fresh copy of the document's metadata with that id added;
    when nothing is remembered for the file, or the remembered id is the
    empty string, it is the document's own metadata object. *)
Theorem metadata_after_construction
    (isTrusted0 : bool) (file0 : Uri) (memento0 : gmap string StoredValue)
    (crypto0 : ICryptoUtils) (json0 : option (NotebookContent J))
    (indent0 : option string) (python0 : option Z) :
  let s := new_BaseNotebookModel isTrusted0 file0 memento0 crypto0 json0 indent0 python0 in
  exists md,
    nc_metadata (notebookJson s) = Some md
    /\ m_kernelId s = getStoredKernelId s
    /\ (forall k, getStoredKernelId s = Some k -> k <> "" ->
        metadata s = MetadataWithId md k)
    /\ (getStoredKernelId s = None \/ getStoredKernelId s = Some "" ->
        metadata s = LiveMetadata (Some md)).
Proof.
  intros s.
  destruct (ensureNotebookJson_metadata
              {| _isTrusted := isTrusted0; _file := file0;
                 globalMemento := memento0; crypto := crypto0;
                 notebookJson := default emptyContent json0;
                 indentAmount := default " " indent0;
                 pythonNumber := default 3 python0;
                 _isDisposed := None; m_kernelId := None;
                 disposedFired := 0 |}) as [md Hmd].
  assert (Hs : nc_metadata (notebookJson s) = Some md) by exact Hmd.
  assert (Hk : m_kernelId s = getStoredKernelId s).
  { subst s. unfold new_BaseNotebookModel, ensureNotebookJson. simpl.
    destruct (nc_metadata (default emptyContent json0)); reflexivity. }
  exists md. split; [exact Hs |]. split; [exact Hk |].
  unfold metadata. rewrite Hs, <- Hk. split.
  - intros k -> Hne. simpl.
    apply String.eqb_neq in Hne. rewrite Hne. reflexivity.
  - intros [-> | ->]; reflexivity.
Qed.

End ModelMore.

Section ReconciliationNames.

Variable getInterpreter : option KernelConnectionMetadata -> option PythonEnvironment.
Variable hasKernelModel : KernelConnectionMetadata -> bool.
Variable sha256_hex : string -> string.

(** X14: after a call for a connection that carries a kernel spec or
    model, the [name] and the [display_name] of the kernelspec block are
    both non-empty, unless the spec or model has neither a name nor a
    display name, in which case both are the empty string. *)
Theorem updateNotebookMetadata_names_together
    (m : NotebookMetadata) (kc : option KernelConnectionMetadata)
    (spec : KernelSpecOrModel) :
  kernelSpecOrModelOf hasKernelModel kc = Some spec ->
  exists m' r ks,
    updateNotebookMetadata getInterpreter hasKernelModel sha256_hex (Some m) kc
    = (Some m', Returns r)
    /\ kernelspec m' = Some ks
    /\ (ks_name ks = "" <-> truthy (name spec) = false /\ truthy (display_name spec) = false)
    /\ (ks_name ks = "" <-> ks_display_name ks = "").
Proof.
  intros Hs.
  destruct (langStep_frame getInterpreter kc (frame0 m)) as (_ & _ & Hid1).
  simpl in Hid1.
  destruct (ksStep_spec hasKernelModel sha256_hex kc
              (languageInfoStep getInterpreter kc (frame0 m)) spec Hs Hid1)
    as (fr & Hfr & Hks & _).
  exists (f_metadata fr), {| changed := f_changed fr; kernelId := f_kernelId fr |}.
  eexists. split; [apply update_steps, Hfr |]. split; [exact Hks |].
  unfold namedFrom. simpl.
  destruct (name spec) as [[| c1 s1] |], (display_name spec) as [[| c2 s2] |]; simpl;
    repeat split; intros; try discriminate; auto;
    match goal with H : _ /\ _ |- _ => destruct H; discriminate end.
Qed.

End ReconciliationNames.

(** ** The further properties at sample inputs *)

Lemma updateNotebookMetadata_idempotent_witness :
  exists m' r r',
    sampleUpdate (Some sampleMetadata) (Some pythonConnection) = (Some m', Returns r)
    /\ sampleUpdate (Some m') (Some pythonConnection) = (Some m', Returns r')
    /\ kernelId r' = kernelId r.
Proof.
  apply (updateNotebookMetadata_idempotent carriedInterpreter isLiveKernel taggedDigest
           sampleMetadata (Some pythonConnection)).
  reflexivity.
Defined.

Lemma updateNotebookMetadata_changed_when_settled_witness :
  exists m' r r',
    sampleUpdate (Some sampleMetadata) (Some specConnection) = (Some m', Returns r)
    /\ sampleUpdate (Some m') (Some specConnection) = (Some m', Returns r')
    /\ (changed r' = true
        <-> exists spec k,
            kernelSpecOrModelOf isLiveKernel (Some specConnection) = Some spec
            /\ id spec = Some k).
Proof.
  apply (updateNotebookMetadata_changed_when_settled
           carriedInterpreter isLiveKernel taggedDigest
           sampleMetadata (Some specConnection)).
  reflexivity.
Defined.

Lemma updateNotebookMetadata_kernelId_witness :
  exists m' r,
    sampleUpdate (Some namedMetadata) (Some specConnection) = (Some m', Returns r)
    /\ (forall spec,
          kernelSpecOrModelOf isLiveKernel (Some specConnection) = Some spec ->
          kernelId r = id spec)
    /\ (kernelSpecOrModelOf isLiveKernel (Some specConnection) = None ->
        kernelId r = None).
Proof.
  apply (updateNotebookMetadata_kernelId carriedInterpreter isLiveKernel taggedDigest
           namedMetadata (Some specConnection)).
  reflexivity.
Defined.

Lemma updateNotebookMetadata_throws_iff_witness :
  snd (sampleUpdate (Some sampleMetadata) (Some bareConnection)) = ThrowsTypeError
  /\ kernelspec <$> fst (sampleUpdate (Some sampleMetadata) (Some bareConnection))
     = Some (kernelspec sampleMetadata).
Proof.
  destruct (updateNotebookMetadata_throws_iff carriedInterpreter isLiveKernel taggedDigest
              sampleMetadata (Some bareConnection)) as [Hiff Hks].
  assert (Ht : snd (sampleUpdate (Some sampleMetadata) (Some bareConnection))
               = ThrowsTypeError).
  { apply Hiff. split; [reflexivity |]. exists bareConnection. repeat split. }
  split; [exact Ht | exact (Hks Ht)].
Defined.

Lemma updateNotebookMetadata_spec_names_witness :
  exists m' r,
    sampleUpdate (Some namedMetadata) (Some specConnection) = (Some m', Returns r)
    /\ kernelspec m' = Some (namedFrom sampleSpec None)
    /\ kernelId r = Some "kernel-1"
    /\ (is_Some (Some "kernel-1") -> changed r = true).
Proof.
  apply (updateNotebookMetadata_spec_names carriedInterpreter isLiveKernel taggedDigest
           namedMetadata (Some specConnection) sampleSpec).
  reflexivity.
Defined.

Lemma updateNotebookMetadata_kernelspec_untouched_witness :
  exists m' r,
    sampleUpdate (Some namedMetadata) (Some defaultKernelConnection) = (Some m', Returns r)
    /\ kernelspec m' = kernelspec namedMetadata
    /\ kernelId r = None.
Proof.
  apply (updateNotebookMetadata_kernelspec_untouched
           carriedInterpreter isLiveKernel taggedDigest
           namedMetadata (Some defaultKernelConnection)).
  - reflexivity.
  - intros c [= <-]. discriminate.
Defined.

Lemma updateNotebookMetadata_on_default_content_witness :
  exists m' r,
    sampleUpdate (nc_metadata (getDefaultNotebookContent (C := unit) 3))
      (Some pythonConnection)
    = (Some m', Returns r)
    /\ changed r = true
    /\ li_version <$> language_info m' = Some (Some (JsString "3.8.5"))
    /\ li_name <$> language_info m' = Some "python".
Proof.
  apply (updateNotebookMetadata_on_default_content
           carriedInterpreter isLiveKernel taggedDigest
           3 (Some pythonConnection) samplePython {| raw := "3.8.5" |});
    reflexivity.
Defined.

Lemma updateNotebookMetadata_language_info_block_witness :
  exists m' r,
    sampleUpdate (Some sampleMetadata) (Some unversionedConnection) = (Some m', Returns r)
    /\ language_info m' = language_info sampleMetadata.
Proof.
  destruct (updateNotebookMetadata_language_info_block
              carriedInterpreter isLiveKernel taggedDigest
              sampleMetadata (Some unversionedConnection) eq_refl)
    as (m' & r & Hu & _ & Hkeep).
  exists m', r. split; [exact Hu |].
  apply (Hkeep {| displayName := None; path := "/opt/py/bin/python"; version := None |});
    reflexivity.
Defined.

Lemma updateNotebookMetadata_names_together_witness :
  exists m' r ks,
    sampleUpdate (Some sampleMetadata) (Some specConnection) = (Some m', Returns r)
    /\ kernelspec m' = Some ks
    /\ (ks_name ks = ""
        <-> truthy (name sampleSpec) = false /\ truthy (display_name sampleSpec) = false)
    /\ (ks_name ks = "" <-> ks_display_name ks = "").
Proof.
  apply (updateNotebookMetadata_names_together
           carriedInterpreter isLiveKernel taggedDigest
           sampleMetadata (Some specConnection) sampleSpec).
  reflexivity.
Defined.

Lemma generateNotebookJson_result_witness :
  fst (generateNotebookJson (fun _ => Some [tt]) freshModel) = freshModel
  /\ nc_cells (snd (generateNotebookJson (fun _ => Some [tt]) freshModel)) = Some [tt].
Proof.
  destruct (generateNotebookJson_result (fun _ => Some [tt]) freshModel)
    as (Hmd & Hcells & _ & _ & _ & Hsame & _).
  split; [| exact Hcells].
  apply Hsame. vm_compute. eauto.
Defined.

Lemma metadata_after_construction_witness :
  exists md,
    nc_metadata (notebookJson sampleModel) = Some md
    /\ metadata sampleModel = MetadataWithId md "kernel-b".
Proof.
  destruct (metadata_after_construction true sampleFile
              {[ ActiveKernelIdList := StoredList sampleEntries ]}
              sampleCrypto (J := unit) None None None)
    as (md & Hmd & _ & Hid & _).
  exists md. split; [exact Hmd |].
  apply Hid; [vm_compute; reflexivity | discriminate].
Defined.

Section ReconciliationFlag.

Variable getInterpreter : option KernelConnectionMetadata -> option PythonEnvironment.
Variable hasKernelModel : KernelConnectionMetadata -> bool.
Variable sha256_hex : string -> string.

(** X15: when a call reports a change. [changed] is true exactly when
    the metadata after the call differs from the metadata before it, or
    the connection carries a kernel spec or model that has an id. *)
Theorem updateNotebookMetadata_changed_exactly
    (m : NotebookMetadata) (kc : option KernelConnectionMetadata) :
  well_typed kc = true ->
  exists m' r,
    updateNotebookMetadata getInterpreter hasKernelModel sha256_hex (Some m) kc
    = (Some m', Returns r)
    /\ (changed r = true
        <-> m' <> m
            \/ exists spec k,
                kernelSpecOrModelOf hasKernelModel kc = Some spec /\ id spec = Some k).
Proof.
  intros W.
  destruct (ksStep_returns hasKernelModel sha256_hex kc
              (languageInfoStep getInterpreter kc (frame0 m)) W) as [fr Hfr].
  exists (f_metadata fr), {| changed := f_changed fr; kernelId := f_kernelId fr |}.
  split; [apply update_steps, Hfr |]. simpl.
  destruct (langStep_frame getInterpreter kc (frame0 m)) as (Hk1 & _ & Hid1).
  pose proof (langStep_cases getInterpreter kc (frame0 m)) as Hlang.
  simpl in Hk1, Hid1, Hlang.
  remember (languageInfoStep getInterpreter kc (frame0 m)) as fr1 eqn:Efr1.
  clear Efr1.
  destruct (ksStep_frame _ _ _ _ _ Hfr) as [Hl _].
  pose proof (ksStep_cases _ _ _ _ _ Hfr) as Hks.
  split.
  - intros Hc.
    destruct Hlang as [E1 | [_ N1]].
    + destruct Hks as [E2 | [_ [N2 | N2]]].
      * subst fr fr1. discriminate.
      * left. intros E. apply N2. rewrite E, E1. reflexivity.
      * right. rewrite Hid1 in N2.
        destruct (kernelSpecOrModelOf hasKernelModel kc) as [spec |] eqn:Hs.
        -- destruct (ksStep_spec hasKernelModel sha256_hex kc fr1 spec Hs Hid1)
             as (fr' & Hfr' & _ & Hid & _).
           rewrite Hfr in Hfr'. injection Hfr' as <-.
           destruct (id spec) as [k |] eqn:Ek; [eauto | congruence].
        -- exfalso. apply N2.
           destruct (connection_sorts hasKernelModel kc W)
             as [[spec Hs'] | [(c & i & -> & _ & Hkind & Hi) | [_ Hkind]]].
           ++ congruence.
           ++ destruct (ksStep_python hasKernelModel sha256_hex c i fr1 Hs Hkind Hi)
                as (fr' & Hfr' & _ & _ & Hid).
              rewrite Hfr in Hfr'. injection Hfr' as <-. congruence.
           ++ rewrite (ksStep_idle hasKernelModel sha256_hex kc fr1 Hs Hkind) in Hfr.
              injection Hfr as <-. exact Hid1.
    + left. intros E. apply N1. rewrite <- Hl, E. reflexivity.
  - intros [Hne | (spec & k & Hs & Hk)].
    + destruct (f_changed fr) eqn:Hc; [reflexivity | exfalso; apply Hne].
      destruct Hks as [E2 | [Hc2 _]]; [| congruence].
      subst fr.
      destruct Hlang as [E1 | [Hc1 _]]; [| congruence].
      rewrite E1. reflexivity.
    + destruct (ksStep_spec hasKernelModel sha256_hex kc fr1 spec Hs Hid1)
        as (fr' & Hfr' & _ & _ & Hc).
      rewrite Hfr in Hfr'. injection Hfr' as <-.
      apply Hc. rewrite Hk. eauto.
Qed.

End ReconciliationFlag.

Lemma updateNotebookMetadata_changed_exactly_witness :
  exists m' r,
    sampleUpdate (Some namedMetadata) (Some pythonConnection) = (Some m', Returns r)
    /\ (changed r = true
        <-> m' <> namedMetadata
            \/ exists spec k,
                kernelSpecOrModelOf isLiveKernel (Some pythonConnection) = Some spec
                /\ id spec = Some k).
Proof.
  apply (updateNotebookMetadata_changed_exactly
           carriedInterpreter isLiveKernel taggedDigest
           namedMetadata (Some pythonConnection)).
  reflexivity.
Defined.
